(** * Razorpay payment provider: a shallow embedding of
    [src/modules/razorpay/service.ts] and the properties of its payment
    lifecycle (signature checks, status mapping, amount conversion,
    webhook dispatch).

    The service is a class whose methods talk to the gateway through
    [this.client_] and read [this.options_].  Here every method is a
    function in a small state-and-exception monad: the state records the
    gateway calls made so far and the lines given to
    [this.logger_.error], the gateway itself is an oracle answering each
    call from the history of calls.  What the methods print with
    [console.log] is not part of that state.  JavaScript values are a
    first-order universe ([value]), numbers are binary64 floats, strings
    are sequences of bytes (a JavaScript string in its UTF-8 encoding,
    which is what [crypto] hashes). *)

From Stdlib Require Import ZArith List String Ascii Bool Floats Lia.
Import ListNotations.
Local Open Scope string_scope.
Local Open Scope list_scope.
Local Open Scope Z_scope.

Set Implicit Arguments.
Set Warnings "-register-all".


(** ** Node's [crypto]: SHA-256 (FIPS 180-4) and HMAC (RFC 2104) *)

Module Crypto.

(** 32-bit words are integers in [0, 2^32); every operation that can
    leave the range is followed by [w32]. *)
Definition w32 (x : Z) : Z := x mod 2 ^ 32.

Definition add32 (x y : Z) : Z := w32 (x + y).

Definition rotr (n x : Z) : Z :=
  Z.lor (Z.shiftr x n) (w32 (Z.shiftl x (32 - n))).

Definition not32 (x : Z) : Z := 2 ^ 32 - 1 - x.

Definition Ch (x y z : Z) : Z :=
  Z.lxor (Z.land x y) (Z.land (not32 x) z).

Definition Maj (x y z : Z) : Z :=
  Z.lxor (Z.lxor (Z.land x y) (Z.land x z)) (Z.land y z).

Definition Sigma0 (x : Z) : Z :=
  Z.lxor (Z.lxor (rotr 2 x) (rotr 13 x)) (rotr 22 x).

Definition Sigma1 (x : Z) : Z :=
  Z.lxor (Z.lxor (rotr 6 x) (rotr 11 x)) (rotr 25 x).

Definition sigma0 (x : Z) : Z :=
  Z.lxor (Z.lxor (rotr 7 x) (rotr 18 x)) (Z.shiftr x 3).

Definition sigma1 (x : Z) : Z :=
  Z.lxor (Z.lxor (rotr 17 x) (rotr 19 x)) (Z.shiftr x 10).

(** The first primes, by trial division: [primes_from fuel n found]
    goes through [n], [n + 1], ... and keeps what no prime found so far
    divides. *)
Fixpoint primes_from (fuel : nat) (n : Z) (found : list Z) : list Z :=
  match fuel with
  | O => found
  | S fuel' =>
      if forallb (fun p => negb (n mod p =? 0)) found
      then primes_from fuel' (n + 1) (found ++ [n])
      else primes_from fuel' (n + 1) found
  end.

Definition first_primes (count : nat) : list Z :=
  firstn count (primes_from 310 2 []).

(** The integer cube root, one bit at a time from bit [bits - 1] down. *)
Fixpoint cube_root_bits (bits : nat) (n r : Z) : Z :=
  match bits with
  | O => r
  | S bits' =>
      let r' := r + 2 ^ Z.of_nat bits' in
      cube_root_bits bits' n (if r' * r' * r' <=? n then r' else r)
  end.

(** The round constants: the first 32 bits of the fractional parts of
    the cube roots of the first 64 primes. *)
Definition K : list Z :=
  Eval vm_compute in
    map (fun p => w32 (cube_root_bits 36 (p * 2 ^ 96) 0)) (first_primes 64).

(** The initial hash value: the first 32 bits of the fractional parts of
    the square roots of the first 8 primes. *)
Definition H0 : list Z :=
  Eval vm_compute in
    map (fun p => w32 (Z.sqrt (p * 2 ^ 64))) (first_primes 8).

(** Big-endian encoding of [x] on [n] bytes. *)
Fixpoint be_bytes (n : nat) (x : Z) : list Z :=
  match n with
  | O => []
  | S n' => be_bytes n' (x / 256) ++ [x mod 256]
  end.

(** Message padding: a [1] bit, zeros up to 56 modulo 64, the bit
    length on 8 bytes. *)
Definition pad (msg : list Z) : list Z :=
  let len := Z.of_nat (List.length msg) in
  let zeros := Z.to_nat ((55 - len) mod 64) in
  msg ++ [0x80] ++ repeat 0 zeros ++ be_bytes 8 (8 * len).

Fixpoint words (fuel : nat) (bs : list Z) : list Z :=
  match fuel, bs with
  | S fuel', b0 :: b1 :: b2 :: b3 :: rest =>
      (((b0 * 256 + b1) * 256 + b2) * 256 + b3) :: words fuel' rest
  | _, _ => []
  end.

(** The message schedule, newest word first: [extend n w] adds [n]
    words to the 16 of the block. *)
Fixpoint extend (n : nat) (w : list Z) : list Z :=
  match n with
  | O => w
  | S n' =>
      let next :=
        add32 (add32 (sigma1 (nth 1 w 0)) (nth 6 w 0))
              (add32 (sigma0 (nth 14 w 0)) (nth 15 w 0)) in
      extend n' (next :: w)
  end.

Definition schedule (block : list Z) : list Z :=
  rev (extend 48 (rev block)).

Record regs := Regs { ra : Z; rb : Z; rc : Z; rd : Z;
                      re : Z; rf : Z; rg : Z; rh : Z }.

Definition round (r : regs) (kw : Z * Z) : regs :=
  let t1 := add32 (add32 (add32 (rh r) (Sigma1 (re r)))
                         (add32 (Ch (re r) (rf r) (rg r)) (fst kw)))
                  (snd kw) in
  let t2 := add32 (Sigma0 (ra r)) (Maj (ra r) (rb r) (rc r)) in
  Regs (add32 t1 t2) (ra r) (rb r) (rc r) (add32 (rd r) t1) (re r) (rf r) (rg r).

Definition compress (h : regs) (block : list Z) : regs :=
  let r := fold_left round (combine K (schedule block)) h in
  Regs (add32 (ra h) (ra r)) (add32 (rb h) (rb r))
       (add32 (rc h) (rc r)) (add32 (rd h) (rd r))
       (add32 (re h) (re r)) (add32 (rf h) (rf r))
       (add32 (rg h) (rg r)) (add32 (rh h) (rh r)).

Fixpoint blocks (fuel : nat) (h : regs) (ws : list Z) : regs :=
  match fuel, ws with
  | S fuel', _ :: _ => blocks fuel' (compress h (firstn 16 ws)) (skipn 16 ws)
  | _, _ => h
  end.

Definition sha256 (msg : list Z) : list Z :=
  let bs := pad msg in
  let ws := words (List.length bs) bs in
  let initial :=
    Regs (nth 0 H0 0) (nth 1 H0 0) (nth 2 H0 0) (nth 3 H0 0)
         (nth 4 H0 0) (nth 5 H0 0) (nth 6 H0 0) (nth 7 H0 0) in
  let h := blocks (List.length ws) initial ws in
  flat_map (be_bytes 4) [ra h; rb h; rc h; rd h; re h; rf h; rg h; rh h].

(** HMAC with a 64-byte block: a longer key is hashed first, then the
    key is padded with zeros. *)
Definition hmac_sha256 (key msg : list Z) : list Z :=
  let k := if (64 <? Z.of_nat (List.length key)) then sha256 key else key in
  let k := k ++ repeat 0 (64 - List.length k) in
  sha256 (map (Z.lxor 0x5c) k ++ sha256 (map (Z.lxor 0x36) k ++ msg)).

Definition bytes_of_string (s : string) : list Z :=
  map (fun c => Z.of_N (N_of_ascii c)) (list_ascii_of_string s).

Definition hex_digit (d : Z) : ascii :=
  ascii_of_N (Z.to_N (if d <? 10 then 48 + d else 87 + d)).

(** [digest("hex")]: two lower-case hexadecimal digits per byte. *)
Fixpoint hex (bs : list Z) : string :=
  match bs with
  | [] => EmptyString
  | b :: rest => String (hex_digit (b / 16)) (String (hex_digit (b mod 16)) (hex rest))
  end.

(** [crypto.createHmac("sha256", key).update(payload).digest("hex")]. *)
Definition hmac_sha256_hex (key payload : string) : string :=
  hex (hmac_sha256 (bytes_of_string key) (bytes_of_string payload)).

End Crypto.

(** ** The JavaScript side: values, coercions, numbers and strings *)

Module JS.

(** What the service handles as [unknown]: the fields of a
    [Record<string, unknown>], a gateway record, a thrown value.  An
    object is the list of its own properties in insertion order. *)
Inductive value : Type :=
| VUndefined
| VNull
| VBool (b : bool)
| VNumber (n : float)
| VString (s : string)
| VObject (props : list (string * value)).

Definition object : Type := list (string * value).

(** The property [k] of an object ([undefined] when it has none).  The
    names the service reads ([id], [status], [amount], [message], ...)
    are defined by no prototype, so own properties are all there is. *)
Fixpoint prop (o : object) (k : string) : value :=
  match o with
  | [] => VUndefined
  | (k', v) :: rest => if String.eqb k' k then v else prop rest k
  end.

(** [{ ...o, k: v }] on the copy: an existing key keeps its place and
    takes the new value, a new key goes last. *)
Fixpoint set_prop (o : object) (k : string) (v : value) : object :=
  match o with
  | [] => [(k, v)]
  | (k', v') :: rest =>
      if String.eqb k' k then (k, v) :: rest else (k', v') :: set_prop rest k v
  end.

(** [data] of a provider input is [Record<string, unknown> | undefined]. *)
Definition of_data (data : option object) : value :=
  match data with
  | Some o => VObject o
  | None => VUndefined
  end.

(** [{ ...data }]: spreading [undefined] copies nothing. *)
Definition spread (data : option object) : object :=
  match data with
  | Some o => o
  | None => []
  end.

(** [v?.k] *)
Definition opt_get (v : value) (k : string) : value :=
  match v with
  | VObject o => prop o k
  | _ => VUndefined
  end.

(** ToBoolean *)
Definition truthy (v : value) : bool :=
  match v with
  | VUndefined | VNull => false
  | VBool b => b
  | VNumber n =>
      match Prim2SF n with
      | S754_nan | S754_zero _ => false
      | _ => true
      end
  | VString s => negb (String.eqb s "")
  | VObject _ => true
  end.

(** [a || b] *)
Definition or_else (a b : value) : value := if truthy a then a else b.

(** [v === "s"] for a string literal [s]. *)
Definition is_str (v : value) (s : string) : bool :=
  match v with
  | VString t => String.eqb t s
  | _ => false
  end.

(** *** Decimal digits *)

Definition digit_char (d : Z) : ascii := ascii_of_N (Z.to_N (48 + d)).

(** The digits of [n >= 0], most significant first, in front of [acc];
    [fuel] bounds the number of digits. *)
Fixpoint decimal_acc (fuel : nat) (n : Z) (acc : string) : string :=
  match fuel with
  | O => acc
  | S fuel' =>
      let acc' := String (digit_char (n mod 10)) acc in
      if n <? 10 then acc' else decimal_acc fuel' (n / 10) acc'
  end.

Definition decimal (n : Z) : string :=
  decimal_acc (S (Z.to_nat (Z.log2 n))) n "".

Definition digit_value (radix : Z) (c : ascii) : option Z :=
  let n := Z.of_N (N_of_ascii c) in
  let d := if (48 <=? n) && (n <=? 57) then n - 48
           else if (97 <=? n) && (n <=? 122) then n - 87
           else if (65 <=? n) && (n <=? 90) then n - 55
           else 36 in
  if d <? radix then Some d else None.

(** The integer read from the longest prefix of digits of [s], after
    [acc]; [None] when neither [acc] nor [s] gives a digit. *)
Fixpoint parse_digits (radix : Z) (s : string) (acc : option Z) : option Z :=
  match s with
  | EmptyString => acc
  | String c rest =>
      match digit_value radix c with
      | Some d =>
          parse_digits radix rest
            (Some (match acc with Some a => a * radix + d | None => d end))
      | None => acc
      end
  end.

(** White space, among the characters of one byte: tab, line feed,
    vertical tab, form feed, carriage return, space. *)
Definition is_space (c : ascii) : bool :=
  let n := Z.of_N (N_of_ascii c) in
  ((9 <=? n) && (n <=? 13)) || (n =? 32).

Fixpoint trim_start (s : string) : string :=
  match s with
  | String c rest => if is_space c then trim_start rest else s
  | EmptyString => s
  end.

(** *** Numbers

    A Number is a binary64 float; products and quotients are the
    hardware's.  What is read off a Number (whether it is finite, its
    sign, its exact value) is read off its sign, mantissa and
    exponent. *)

(** The Number nearest to an integer. *)
Definition of_Z (z : Z) : float :=
  SF2Prim (binary_normalize prec emax z 0 false).

Definition finite (x : float) : bool :=
  match Prim2SF x with
  | S754_nan | S754_infinity _ => false
  | _ => true
  end.

(** [x < 0] *)
Definition negative (x : float) : bool :=
  match Prim2SF x with
  | S754_finite s _ _ | S754_infinity s => s
  | _ => false
  end.

(** The exact absolute value of a finite Number, as the fraction
    (numerator, denominator). *)
Definition fraction (x : float) : Z * Z :=
  match Prim2SF x with
  | S754_finite _ m e => (Z.pos m * 2 ^ Z.max 0 e, 2 ^ Z.max 0 (- e))
  | _ => (0, 1)
  end.

(** [10^k <= x] for a fraction [x]. *)
Definition at_least_1e (k : Z) (x : Z * Z) : bool :=
  10 ^ k * snd x <=? fst x.

(** The integer [n] for which [n - x] is as close to zero as possible,
    the larger one when there are two. *)
Definition nearest_integer (x : Z * Z) : Z :=
  (2 * fst x + snd x) / (2 * snd x).

(** What the service needs of the engine and cannot be read off its
    source: the digits of a finite positive Number
    (Number::toString), the Number a string denotes (StringToNumber),
    [JSON.stringify], the clock behind [Date.now()], in milliseconds
    since the epoch (not negative), and the Unicode case mapping of
    [String.prototype.toUpperCase] for a string that has characters
    beyond ASCII. *)
Record runtime := {
  digits_of_number : float -> string;
  StringToNumber : string -> float;
  JSON_stringify : value -> string;
  Date_now : Z;
  upper_case_beyond_ascii : string -> string
}.

Section WithRuntime.
Variable rt : runtime.

(** Number::toString, radix 10 *)
Definition NumberToString (x : float) : string :=
  match Prim2SF x with
  | S754_nan => "NaN"
  | S754_zero _ => "0"
  | S754_infinity s => if s then "-Infinity" else "Infinity"
  | S754_finite s _ _ =>
      String.append (if s then "-" else "")
        (digits_of_number rt (PrimFloat.abs x))
  end.

(** [x.toFixed(0)]: Number::toString for a Number that is not
    finite; otherwise the sign, then Number::toString from 10^21
    on, and below it the digits of the nearest integer. *)
Definition toFixed_0 (x : float) : string :=
  if negb (finite x) then NumberToString x
  else
    let s := if negative x then "-" else "" in
    let m := if at_least_1e 21 (fraction x)
             then NumberToString (PrimFloat.abs x)
             else decimal (nearest_integer (fraction x)) in
    String.append s m.

(** ToString *)
Definition ToString (v : value) : string :=
  match v with
  | VUndefined => "undefined"
  | VNull => "null"
  | VBool true => "true"
  | VBool false => "false"
  | VNumber n => NumberToString n
  | VString s => s
  | VObject _ => "[object Object]"
  end.

(** ToNumber *)
Definition ToNumber (v : value) : float :=
  match v with
  | VUndefined => PrimFloat.nan
  | VNull => 0%float
  | VBool true => 1%float
  | VBool false => 0%float
  | VNumber n => n
  | VString s => StringToNumber rt s
  | VObject _ => PrimFloat.nan
  end.
End WithRuntime.

(** The digits [parseInt] reads after the sign: [0x] or [0X] selects
    radix 16, then comes the longest prefix of digits. *)
Definition parse_magnitude (s : string) : option Z :=
  match s with
  | String "0" (String "x" rest) | String "0" (String "X" rest) =>
      parse_digits 16 rest None
  | _ => parse_digits 10 s None
  end.

(** [parseInt(s)] with no radix: leading white space, a sign, the
    digits; [NaN] without a digit. *)
Definition parseInt (s : string) : float :=
  let s := trim_start s in
  let (negative, s) :=
    match s with
    | String "-" rest => (true, rest)
    | String "+" rest => (false, rest)
    | _ => (false, s)
    end in
  match parse_magnitude s with
  | None => PrimFloat.nan
  | Some n => if negative then PrimFloat.opp (of_Z n) else of_Z n
  end.

(** [Number.isNaN(x)] *)
Definition isNaN (x : float) : bool :=
  match Prim2SF x with
  | S754_nan => true
  | _ => false
  end.

(** Upper case within ASCII: the letters a-z, nothing else. *)
Definition upper_char (c : ascii) : ascii :=
  let n := N_of_ascii c in
  if (N.leb 97 n && N.leb n 122)%bool then ascii_of_N (n - 32) else c.

Fixpoint upper_ascii (s : string) : string :=
  match s with
  | EmptyString => EmptyString
  | String c rest => String (upper_char c) (upper_ascii rest)
  end.

(** Every byte of the string is an ASCII character. *)
Fixpoint is_ascii (s : string) : bool :=
  match s with
  | EmptyString => true
  | String c rest => N.ltb (N_of_ascii c) 128 && is_ascii rest
  end.

(** [s.toUpperCase()]: within ASCII the letters a-z go to A-Z and
    nothing else changes; a string with a character beyond ASCII is
    mapped by the engine's Unicode case mapping (which can change its
    length). *)
Definition toUpperCase (rt : runtime) (s : string) : string :=
  if is_ascii s then upper_ascii s else upper_case_beyond_ascii rt s.

End JS.

Import JS.

(** ** Effects: gateway calls, the logger, exceptions *)

(** The requests [this.client_] sends. *)
Inductive call : Type :=
| orders_create (body : object)
| orders_fetch (id : value)
| payments_fetch (id : value)
| payments_capture (id amount : value)
| payments_refund (id : value) (body : object).

(** A request's promise resolves with a record or rejects with an error
    object. *)
Inductive response : Type :=
| Resolve (v : value)
| Reject (err : object).

(** The gateway answers a request knowing the requests before it. *)
Definition gateway : Type := list call -> call -> response.

(** What a method leaves behind: the requests sent, oldest first, and
    the lines given to [this.logger_.error]. *)
Record world := World { calls : list call; logged : list string }.

Definition start : world := World [] [].

Inductive outcome (A : Type) : Type :=
| Return (a : A)
| Throw (e : value).
Arguments Throw {A} e.

Definition M (A : Type) : Type := world -> outcome A * world.

Definition ret {A} (a : A) : M A := fun w => (Return a, w).

Definition throw {A} (e : value) : M A := fun w => (Throw e, w).

Definition bind {A B} (m : M A) (k : A -> M B) : M B :=
  fun w =>
    match m w with
    | (Return a, w') => k a w'
    | (Throw e, w') => (Throw e, w')
    end.

(** [try { m } catch (error) { handler error }] *)
Definition try_catch {A} (m : M A) (handler : value -> M A) : M A :=
  fun w =>
    match m w with
    | (Return a, w') => (Return a, w')
    | (Throw e, w') => handler e w'
    end.

Notation "x <- m ;; k" := (bind m (fun x => k))
  (at level 61, m at next level, right associativity).
Notation "m ;; k" := (bind m (fun _ => k))
  (at level 61, right associativity).

(** [await this.client_...]: the request joins the history, a rejection
    is thrown. *)
Definition request (client_ : gateway) (c : call) : M value :=
  fun w =>
    let w' := World (calls w ++ [c]) (logged w) in
    match client_ (calls w) c with
    | Resolve v => (Return v, w')
    | Reject err => (Throw (VObject err), w')
    end.

(** [this.logger_.error(line)] *)
Definition logger_error (line : string) : M unit :=
  fun w => (Return tt, World (calls w) (logged w ++ [line])).

Inductive MedusaErrorType : Type :=
| INVALID_DATA
| UNEXPECTED_STATE.

Definition type_name (t : MedusaErrorType) : string :=
  match t with
  | INVALID_DATA => "invalid_data"
  | UNEXPECTED_STATE => "unexpected_state"
  end.

(** [new MedusaError(type, message)], by the two fields read of it. *)
Definition MedusaError (t : MedusaErrorType) (message : string) : value :=
  VObject [("type", VString (type_name t)); ("message", VString message)].

(** The TypeError of reading a property of [undefined] or [null], with
    V8's message. *)
Definition TypeError_reading (base : string) (k : string) : value :=
  VObject [("name", VString "TypeError");
           ("message",
            VString (String.append "Cannot read properties of "
                    (String.append base
                    (String.append " (reading '"
                    (String.append k "')")))))].

(** [new Error(message)] *)
Definition Error_ (message : string) : value :=
  VObject [("name", VString "Error"); ("message", VString message)].

(** [v.k] *)
Definition get (v : value) (k : string) : M value :=
  match v with
  | VUndefined => throw (TypeError_reading "undefined" k)
  | VNull => throw (TypeError_reading "null" k)
  | VObject o => ret (prop o k)
  | _ => ret VUndefined
  end.

(** [v.k1.k2...] and [v?.k1?.k2...] *)
Fixpoint get_path (v : value) (ks : list string) : M value :=
  match ks with
  | [] => ret v
  | k :: rest => x <- get v k ;; get_path x rest
  end.

Definition opt_path (v : value) (ks : list string) : value :=
  fold_left opt_get ks v.

(** ** The provider's types *)

Record RazorpayOptions := {
  key_id : string;
  key_secret : string;
  webhook_secret : option string
}.

(** An optional string used as a condition: set and not empty. *)
Definition is_set (s : option string) : bool :=
  match s with
  | Some s => truthy (VString s)
  | None => false
  end.

Inductive PaymentSessionStatus : Type :=
| status_authorized
| status_captured
| status_pending
| status_requires_more
| status_error
| status_canceled.

Inductive PaymentActions : Type :=
| action_authorized
| action_captured
| action_refunded
| action_failed
| action_not_supported.

(** A [BigNumber] of @medusajs/framework/utils built from a Number. *)
Record BigNumber := { numeric : float }.

Record InitiatePaymentInput := {
  initiate_amount : float;
  initiate_currency_code : string;
  initiate_data : option object
}.

Record InitiatePaymentOutput := {
  initiated_id : value;
  initiated_data : value
}.

(** The inputs of authorize, capture, cancel and getPaymentStatus: the
    session's [data]. *)
Record PaymentInput := { data : option object }.

Record AuthorizePaymentOutput := {
  authorize_status : PaymentSessionStatus;
  authorize_data : option object
}.

(** The outputs of capture, cancel and refund. *)
Record PaymentOutput := { output_data : option object }.

Record RefundPaymentInput := {
  refund_data : option object;
  refund_amount : float
}.

Record GetPaymentStatusOutput := { status : PaymentSessionStatus }.

Record ProviderWebhookPayload := {
  webhook_data : object;
  headers : object;
  rawData : string
}.

Inductive WebhookData : Type :=
| session_amount (session_id : value) (amount : BigNumber)
| session_amount_error (session_id : value) (amount : BigNumber) (error : value)
| message_only (message : string).

Record WebhookActionResult := {
  action : PaymentActions;
  action_data : option WebhookData
}.

(** ** [RazorpayProviderService] *)

Section RazorpayProviderService.

Variable rt : runtime.
Variable options_ : RazorpayOptions.
Variable client_ : gateway.

(** [verifySignature(payload, signature)] *)
Definition verifySignature (payload : string) (signature : value) : bool :=
  let expectedSignature := Crypto.hmac_sha256_hex (key_secret options_) payload in
  is_str signature expectedSignature.

(** [verifyWebhookSignature(payload, signature)] *)
Definition verifyWebhookSignature (payload : string) (signature : value) : bool :=
  match webhook_secret options_ with
  | Some secret =>
      if negb (truthy (VString secret)) then false
      else
        let expectedSignature := Crypto.hmac_sha256_hex secret payload in
        is_str signature expectedSignature
  | None => false
  end.

(** [initiatePayment(input)] *)
Definition initiatePayment (input : InitiatePaymentInput)
  : M InitiatePaymentOutput :=
  try_catch
    (let amount := initiate_amount input in
     let currency_code := initiate_currency_code input in
     let paymentAmount := parseInt (toFixed_0 rt (amount * 100)%float) in
     let orderPayload :=
       [("amount", VNumber paymentAmount);
        ("currency", VString (toUpperCase rt currency_code));
        ("receipt", VString ("medusa_" ++ decimal (Date_now rt))%string);
        ("notes", VObject [("medusa_payment_provider", VString "razorpay")])] in
     razorpayOrder <- request client_ (orders_create orderPayload) ;;
     id <- get razorpayOrder "id" ;;
     ret {| initiated_id := id; initiated_data := razorpayOrder |})
    (fun error =>
       let errorData := or_else (opt_get error "error") error in
       let detailedMessage :=
         or_else (opt_get errorData "description")
           (or_else (opt_get errorData "message")
              (or_else (opt_path errorData ["error"; "description"])
                 (VString (JSON_stringify rt errorData)))) in
       let line := ("Failed to initiate Razorpay payment: "
                    ++ ToString rt detailedMessage)%string in
       logger_error line ;;
       throw (MedusaError UNEXPECTED_STATE line)).

(** [authorizePayment(input)] *)
Definition authorizePayment (input : PaymentInput) : M AuthorizePaymentOutput :=
  try_catch
    (let data := data input in
     if truthy (opt_get (of_data data) "razorpay_payment_id")
        && truthy (opt_get (of_data data) "razorpay_signature")
     then
       orderId <- get (of_data data) "razorpay_order_id" ;;
       paymentId <- get (of_data data) "razorpay_payment_id" ;;
       signature <- get (of_data data) "razorpay_signature" ;;
       let payload := (ToString rt orderId ++ "|" ++ ToString rt paymentId)%string in
       let isValid := verifySignature payload signature in
       if negb isValid then
         ret {| authorize_status := status_error;
                authorize_data :=
                  Some (set_prop (spread data) "error"
                          (VString "Invalid payment signature")) |}
       else
         payment <- request client_ (payments_fetch paymentId) ;;
         payment_status <- get payment "status" ;;
         if is_str payment_status "authorized" || is_str payment_status "captured"
         then
           ret {| authorize_status :=
                    if is_str payment_status "captured"
                    then status_captured else status_authorized;
                  authorize_data :=
                    Some (set_prop (spread data) "payment_details" payment) |}
         else
           ret {| authorize_status := status_pending;
                  authorize_data :=
                    Some (set_prop (spread data) "payment_details" payment) |}
     else
       ret {| authorize_status := status_pending; authorize_data := data |})
    (fun error =>
       message <- get error "message" ;;
       logger_error ("Failed to authorize Razorpay payment: "
                     ++ ToString rt message)%string ;;
       ret {| authorize_status := status_error;
              authorize_data :=
                Some (set_prop (spread (data input)) "error" message) |}).

(** [capturePayment(input)] *)
Definition capturePayment (input : PaymentInput) : M PaymentOutput :=
  try_catch
    (let data := data input in
     if negb (truthy (opt_path (of_data data) ["payment_details"; "id"])) then
       throw (MedusaError INVALID_DATA "Payment ID is required to capture payment")
     else
       paymentId <- get_path (of_data data) ["payment_details"; "id"] ;;
       amount <- get_path (of_data data) ["payment_details"; "amount"] ;;
       capturedPayment <- request client_ (payments_capture paymentId amount) ;;
       ret {| output_data :=
                Some (set_prop (spread data) "payment_details" capturedPayment) |})
    (fun error =>
       message <- get error "message" ;;
       let line := ("Failed to capture Razorpay payment: "
                    ++ ToString rt message)%string in
       logger_error line ;;
       throw (MedusaError UNEXPECTED_STATE line)).

(** [cancelPayment(input)] *)
Definition cancelPayment (input : PaymentInput) : M PaymentOutput :=
  try_catch
    (let data := data input in
     if truthy (opt_path (of_data data) ["payment_details"; "id"])
        && is_str (opt_path (of_data data) ["payment_details"; "status"]) "authorized"
     then
       id <- get_path (of_data data) ["payment_details"; "id"] ;;
       amount <- get_path (of_data data) ["payment_details"; "amount"] ;;
       request client_
         (payments_refund id
            [("amount", amount);
             ("notes", VObject [("cancellation_reason",
                                 VString "Payment cancelled by merchant")])]) ;;
       id' <- get_path (of_data data) ["payment_details"; "id"] ;;
       updatedPayment <- request client_ (payments_fetch id') ;;
       ret {| output_data :=
                Some (set_prop (spread data) "payment_details" updatedPayment) |}
     else
       ret {| output_data := data |})
    (fun error =>
       message <- get error "message" ;;
       let line := ("Failed to cancel Razorpay payment: "
                    ++ ToString rt message)%string in
       logger_error line ;;
       throw (MedusaError UNEXPECTED_STATE line)).

(** [refundPayment(input)] *)
Definition refundPayment (input : RefundPaymentInput) : M PaymentOutput :=
  try_catch
    (let data := refund_data input in
     let amount := refund_amount input in
     if negb (truthy (opt_path (of_data data) ["payment_details"; "id"])) then
       throw (MedusaError INVALID_DATA "Payment ID is required to refund payment")
     else
       let refundAmount := parseInt (toFixed_0 rt (amount * 100)%float) in
       id <- get_path (of_data data) ["payment_details"; "id"] ;;
       refundData <-
         request client_
           (payments_refund id
              [("amount", VNumber refundAmount);
               ("notes", VObject [("refund_reason",
                                   VString "Refund requested by merchant")])]) ;;
       ret {| output_data :=
                Some (set_prop (spread data) "refund_details" refundData) |})
    (fun error =>
       message <- get error "message" ;;
       let line := ("Failed to refund Razorpay payment: "
                    ++ ToString rt message)%string in
       logger_error line ;;
       throw (MedusaError UNEXPECTED_STATE line)).

(** [getPaymentStatus(input)] *)
Definition getPaymentStatus (input : PaymentInput) : M GetPaymentStatusOutput :=
  try_catch
    (let data := data input in
     if truthy (opt_path (of_data data) ["payment_details"; "id"]) then
       paymentId <- get_path (of_data data) ["payment_details"; "id"] ;;
       payment <- request client_ (payments_fetch paymentId) ;;
       payment_status <- get payment "status" ;;
       if is_str payment_status "created" then ret {| status := status_pending |}
       else if is_str payment_status "authorized" then ret {| status := status_authorized |}
       else if is_str payment_status "captured" then ret {| status := status_captured |}
       else if is_str payment_status "failed" then ret {| status := status_error |}
       else ret {| status := status_pending |}
     else if truthy (opt_get (of_data data) "id") then
       id <- get (of_data data) "id" ;;
       order <- request client_ (orders_fetch id) ;;
       order_status <- get order "status" ;;
       if is_str order_status "paid" then ret {| status := status_captured |}
       else if is_str order_status "attempted" then ret {| status := status_authorized |}
       else ret {| status := status_pending |}
     else
       ret {| status := status_pending |})
    (fun error =>
       message <- get error "message" ;;
       logger_error ("Failed to get Razorpay payment status: "
                     ++ ToString rt message)%string ;;
       ret {| status := status_error |}).

(** [new BigNumber(n)] for a Number [n]: the constructor takes every
    Number but [NaN], for which it throws an [Error]. *)
Definition new_BigNumber (n : float) : M BigNumber :=
  if isNaN n then
    throw (Error_ "Invalid BigNumber value: NaN. Should be one of: string, number, BigNumber (bignumber.js), BigNumberRawValue")
  else ret {| numeric := n |}.

(** [new BigNumber(v / 100)] *)
Definition major_units (v : value) : M BigNumber :=
  new_BigNumber (ToNumber rt v / 100)%float.

(** The [switch (data.event)] of [getWebhookActionAndData]. *)
Definition dispatch_event (data : object) : M WebhookActionResult :=
  let event := prop data "event" in
  if is_str event "payment.authorized" then
    session_id <- get_path (VObject data) ["payload"; "payment"; "entity"; "order_id"] ;;
    amount <- get_path (VObject data) ["payload"; "payment"; "entity"; "amount"] ;;
    amount <- major_units amount ;;
    ret {| action := action_authorized;
           action_data := Some (session_amount session_id amount) |}
  else if is_str event "payment.captured" then
    session_id <- get_path (VObject data) ["payload"; "payment"; "entity"; "order_id"] ;;
    amount <- get_path (VObject data) ["payload"; "payment"; "entity"; "amount"] ;;
    amount <- major_units amount ;;
    ret {| action := action_captured;
           action_data := Some (session_amount session_id amount) |}
  else if is_str event "refund.processed" then
    session_id <- get_path (VObject data) ["payload"; "refund"; "entity"; "payment_id"] ;;
    amount <- get_path (VObject data) ["payload"; "refund"; "entity"; "amount"] ;;
    amount <- major_units amount ;;
    ret {| action := action_refunded;
           action_data := Some (session_amount session_id amount) |}
  else if is_str event "payment.failed" then
    session_id <- get_path (VObject data) ["payload"; "payment"; "entity"; "order_id"] ;;
    amount <- get_path (VObject data) ["payload"; "payment"; "entity"; "amount"] ;;
    amount <- major_units amount ;;
    error_description <-
      get_path (VObject data) ["payload"; "payment"; "entity"; "error_description"] ;;
    ret {| action := action_failed;
           action_data :=
             Some (session_amount_error session_id amount
                     (or_else error_description (VString "Payment failed"))) |}
  else
    ret {| action := action_not_supported; action_data := None |}.

(** The [catch] block of [getWebhookActionAndData]. *)
Definition webhook_failure (error : value) : M WebhookActionResult :=
  message <- get error "message" ;;
  logger_error ("Failed to process Razorpay webhook: "
                ++ ToString rt message)%string ;;
  ret {| action := action_failed;
         action_data :=
           Some (message_only ("Error processing webhook: "
                               ++ ToString rt message)%string) |}.

(** [getWebhookActionAndData(payload)]: the signature is checked only
    under [if (this.options_.webhook_secret)]; an event that is not
    turned away there reaches the switch. *)
Definition getWebhookActionAndData (payload : ProviderWebhookPayload)
  : M WebhookActionResult :=
  try_catch
    (let data := webhook_data payload in
     let headers := headers payload in
     let rawData := rawData payload in
     if is_set (webhook_secret options_) then
       let signature := prop headers "x-razorpay-signature" in
       if negb (truthy signature)
          || negb (verifyWebhookSignature rawData signature)
       then
         ret {| action := action_failed;
                action_data := Some (message_only "Invalid webhook signature") |}
       else dispatch_event data
     else dispatch_event data)
    webhook_failure.

End RazorpayProviderService.

(** ** The rest of the provider: [updatePayment] *)

Record UpdatePaymentInput := {
  update_amount : float;
  update_currency_code : string;
  update_data : option object
}.

Record UpdatePaymentOutput := {
  updated_id : value;
  updated_data : object
}.

(** The characters of a string as the properties ["i"], ["i + 1"], ...
    (one byte each, as strings are kept here). *)
Fixpoint characters_from (i : Z) (s : string) : object :=
  match s with
  | EmptyString => []
  | String c rest => (decimal i, VString (String c "")) :: characters_from (i + 1) rest
  end.

(** [{ ...v }] for any value: the own enumerable properties of [v];
    those of a string are its characters, the other primitives have
    none. *)
Definition spread_value (v : value) : object :=
  match v with
  | VObject o => o
  | VString s => characters_from 0 s
  | _ => []
  end.

Section UpdatePayment.

Variable rt : runtime.
Variable client_ : gateway.

(** [updatePayment(input)] *)
Definition updatePayment (input : UpdatePaymentInput) : M UpdatePaymentOutput :=
  try_catch
    (let amount := update_amount input in
     let currency_code := update_currency_code input in
     let data := update_data input in
     if negb (truthy (opt_get (of_data data) "id")) then
       throw (MedusaError INVALID_DATA "Order ID is required to update payment")
     else
       let paymentAmount := parseInt (toFixed_0 rt (amount * 100)%float) in
       previous <- get (of_data data) "id" ;;
       let orderPayload :=
         [("amount", VNumber paymentAmount);
          ("currency", VString (toUpperCase rt currency_code));
          ("receipt", VString ("medusa_" ++ decimal (Date_now rt))%string);
          ("notes", VObject [("medusa_payment_provider", VString "razorpay");
                             ("previous_order_id", previous)])] in
       razorpayOrder <- request client_ (orders_create orderPayload) ;;
       id <- get razorpayOrder "id" ;;
       previous' <- get (of_data data) "id" ;;
       ret {| updated_id := id;
              updated_data :=
                set_prop (spread_value razorpayOrder) "previous_order_id" previous' |})
    (fun error =>
       message <- get error "message" ;;
       let line := ("Failed to update Razorpay payment: "
                    ++ ToString rt message)%string in
       logger_error line ;;
       throw (MedusaError UNEXPECTED_STATE line)).

End UpdatePayment.

(** ** Vocabulary of the statements *)

(** The condition under which [getWebhookActionAndData] turns an event
    away for its signature: a secret is configured and the header is
    missing or does not verify. *)
Definition rejected_at_gate (options_ : RazorpayOptions)
  (payload : ProviderWebhookPayload) : bool :=
  is_set (webhook_secret options_)
  && (negb (truthy (prop (headers payload) "x-razorpay-signature"))
      || negb (verifyWebhookSignature options_ (rawData payload)
                 (prop (headers payload) "x-razorpay-signature"))).

(** The event types the switch of [getWebhookActionAndData] names. *)
Definition recognized (event : value) : bool :=
  is_str event "payment.authorized" || is_str event "payment.captured"
  || is_str event "refund.processed" || is_str event "payment.failed".

(** [n] is the fraction [x] rounded to the nearest integer, a half
    going up: [n - 1/2 <= x < n + 1/2]. *)
Definition rounds_half_up (x : Z * Z) (n : Z) : Prop :=
  (2 * n - 1) * snd x <= 2 * fst x < (2 * n + 1) * snd x.

(** [sent] is the minor-unit amount for the product [p = amount * 100]:
    [NaN] when [p] is not finite; for a finite [p] below 10^21 in
    absolute value, [|p|] rounded half up, with the sign of [p].  From
    10^21 on nothing is said. *)
Definition minor_units (p sent : float) : Prop :=
  if negb (finite p) then sent = PrimFloat.nan
  else if at_least_1e 21 (fraction p) then True
  else exists n,
      0 <= n
      /\ rounds_half_up (fraction p) n
      /\ sent = if negative p then PrimFloat.opp (of_Z n) else of_Z n.

(** A computation throws only objects. *)
Definition throws_objects {A} (m : M A) : Prop :=
  forall w e w', m w = (Throw e, w') -> exists o, e = VObject o.

(** A computation leaves a component [f] of the world as it found it:
    with [calls] it sends no request, with [logged] it logs nothing. *)
Definition keeps {T A} (f : world -> T) (m : M A) : Prop :=
  forall w r w', m w = (r, w') -> f w' = f w.

(** The line the [catch] blocks of capture, cancel, refund and update
    log and throw for a rejection [err] of the gateway. *)
Definition failure_line (rt : runtime) (what : string) (err : object) : string :=
  ("Failed to " ++ what ++ " Razorpay payment: " ++ ToString rt (prop err "message"))%string.

(** A lower-case hexadecimal digit: [0]-[9] or [a]-[f]. *)
Definition lower_hex (c : ascii) : bool :=
  let n := Z.of_N (N_of_ascii c) in
  ((48 <=? n) && (n <=? 57)) || ((97 <=? n) && (n <=? 102)).

(** ** Sample configuration, gateway and inputs for the examples *)

(** A runtime for the examples.  Its engine functions are stand-ins:
    none of the examples below reaches them. *)
Definition sample_runtime : runtime :=
  {| digits_of_number := fun _ => "";
     StringToNumber := fun _ => PrimFloat.nan;
     JSON_stringify := fun _ => "{}";
     Date_now := 1700000000000;
     upper_case_beyond_ascii := fun s => s |}.

Definition options_without_webhook_secret : RazorpayOptions :=
  {| key_id := "rzp_test_key"; key_secret := "test_secret"; webhook_secret := None |}.


(** A gateway that creates [order_1], reports [pay_1] as authorized
    until a refund has been requested, and rejects captures. *)
Definition sample_gateway : gateway :=
  fun history c =>
    match c with
    | orders_create body => Resolve (VObject (("id", VString "order_1") :: body))
    | orders_fetch id => Resolve (VObject [("id", id); ("status", VString "attempted")])
    | payments_fetch id =>
        Resolve (VObject [("id", id);
                          ("status",
                           VString (if existsb (fun c' => match c' with
                                                          | payments_refund _ _ => true
                                                          | _ => false
                                                          end) history
                                    then "refunded" else "authorized"));
                          ("amount", VNumber 49900)])
    | payments_capture _ _ =>
        Reject [("statusCode", VNumber 400);
                ("error", VObject [("description", VString "capture refused")])]
    | payments_refund id body => Resolve (VObject (("id", VString "rfnd_1") :: body))
    end.

Definition captured_event : object :=
  [("event", VString "payment.captured");
   ("payload",
    VObject [("payment",
              VObject [("entity",
                        VObject [("id", VString "pay_1");
                                 ("order_id", VString "order_1");
                                 ("amount", VNumber 49900)])])])].

Definition refund_event : object :=
  [("event", VString "refund.processed");
   ("payload",
    VObject [("refund",
              VObject [("entity",
                        VObject [("id", VString "rfnd_1");
                                 ("payment_id", VString "pay_1");
                                 ("amount", VNumber 49900)])])])].

Definition authorized_session : option object :=
  Some [("id", VString "order_1");
        ("payment_details",
         VObject [("id", VString "pay_1");
                  ("status", VString "authorized");
                  ("amount", VNumber 49900)])].

(** ** Properties *)

(** *** Node's [crypto] on known vectors *)

Example sha256_abc :
  Crypto.hex (Crypto.sha256 (Crypto.bytes_of_string "abc"))
  = "ba7816bf8f01cfea414140de5dae2223b00361a396177a9cb410ff61f20015ad".
Proof. vm_compute. reflexivity. Qed.

Example hmac_fox :
  Crypto.hmac_sha256_hex "key" "The quick brown fox jumps over the lazy dog"
  = "f7bc83f430538424b13298e6aa6fb143ef4d59a14946175997479dbc2d1a3cd8".
Proof. vm_compute. reflexivity. Qed.

(** *** Signature checks *)

Lemma is_str_true (v : value) (s : string) :
  is_str v s = true <-> v = VString s.
Proof.
  destruct v; simpl; split; try discriminate.
  - intro H. apply String.eqb_eq in H. now subst.
  - intro H. injection H as ->. apply String.eqb_refl.
Qed.

(** [verifySignature] accepts exactly the lower-case hexadecimal
    HMAC-SHA256 of the payload under [key_secret]. *)
Lemma verifySignature_spec (options_ : RazorpayOptions) (payload : string) (signature : value) :
  verifySignature options_ payload signature = true
  <-> signature = VString (Crypto.hmac_sha256_hex (key_secret options_) payload).
Proof. unfold verifySignature. apply is_str_true. Qed.

Lemma verifyWebhookSignature_unset (options_ : RazorpayOptions) (payload : string) (signature : value) :
  is_set (webhook_secret options_) = false ->
  verifyWebhookSignature options_ payload signature = false.
Proof.
  unfold verifyWebhookSignature, is_set.
  destruct (webhook_secret options_) as [secret|]; [|reflexivity].
  intros ->. reflexivity.
Qed.

(** *** The monad *)

Lemma bind_return {A B} {m : M A} (k : A -> M B) {w w' : world} {a : A} :
  m w = (Return a, w') -> bind m k w = k a w'.
Proof. unfold bind. now intros ->. Qed.

Lemma bind_throw {A B} {m : M A} (k : A -> M B) {w w' : world} {e : value} :
  m w = (Throw e, w') -> bind m k w = (Throw e, w').
Proof. unfold bind. now intros ->. Qed.

Lemma get_object (o : object) (k : string) (w : world) :
  get (VObject o) k w = (Return (prop o k), w).
Proof. reflexivity. Qed.

Lemma throws_objects_ret {A} (a : A) : throws_objects (ret a).
Proof. intros w e w' H. discriminate. Qed.

Lemma throws_objects_throw {A} (o : object) : throws_objects (@throw A (VObject o)).
Proof. intros w e w' H. injection H as <- _. now exists o. Qed.

Lemma throws_objects_bind {A B} (m : M A) (k : A -> M B) :
  throws_objects m -> (forall a, throws_objects (k a)) -> throws_objects (bind m k).
Proof.
  intros Hm Hk w e w' H. unfold bind in H.
  destruct (m w) as [[a|e0] w0] eqn:E.
  - now apply (Hk a w0 e w').
  - injection H as <- _. now apply (Hm w e0 w0).
Qed.

Lemma throws_objects_get (v : value) (k : string) : throws_objects (get v k).
Proof.
  intros w e w' H. destruct v; simpl in H; try discriminate;
    injection H as <- _; eexists; reflexivity.
Qed.

Lemma throws_objects_get_path (ks : list string) :
  forall v, throws_objects (get_path v ks).
Proof.
  induction ks as [|k rest IH]; intro v; simpl.
  - apply throws_objects_ret.
  - apply throws_objects_bind; [apply throws_objects_get | exact IH].
Qed.

Lemma throws_objects_request (client_ : gateway) (c : call) :
  throws_objects (request client_ c).
Proof.
  intros w e w' H. unfold request in H.
  destruct (client_ (calls w) c); [discriminate|].
  injection H as <- _. eexists; reflexivity.
Qed.

Lemma throws_objects_if {A} (b : bool) (m1 m2 : M A) :
  throws_objects m1 -> throws_objects m2 -> throws_objects (if b then m1 else m2).
Proof. now destruct b. Qed.

Create HintDb throws.
#[local] Hint Resolve throws_objects_ret throws_objects_throw throws_objects_get
  throws_objects_get_path throws_objects_request : throws.
#[local] Hint Extern 2 (throws_objects (bind _ _)) =>
  apply throws_objects_bind; [|intro] : throws.
#[local] Hint Extern 2 (throws_objects (if _ then _ else _)) =>
  apply throws_objects_if : throws.

(** A [try] whose body throws only objects and whose handler returns on
    every object returns. *)
Lemma try_catch_returns {A} (m : M A) (handler : value -> M A) :
  throws_objects m ->
  (forall o w, exists a w', handler (VObject o) w = (Return a, w')) ->
  forall w, exists a w', try_catch m handler w = (Return a, w').
Proof.
  intros Hm Hh w. unfold try_catch.
  destruct (m w) as [[a|e] w0] eqn:E.
  - now exists a, w0.
  - destruct (Hm w e w0 E) as [o ->]. apply Hh.
Qed.

(** *** Webhooks *)


(** An event that is not turned away at the gate goes to the switch. *)
Lemma gate_passes (rt : runtime) (options_ : RazorpayOptions)
  (payload : ProviderWebhookPayload) (w : world) :
  rejected_at_gate options_ payload = false ->
  getWebhookActionAndData rt options_ payload w
  = try_catch (dispatch_event rt (webhook_data payload)) (webhook_failure rt) w.
Proof.
  unfold rejected_at_gate, getWebhookActionAndData, try_catch. intro H.
  destruct (is_set (webhook_secret options_)); simpl in *; [|reflexivity].
  rewrite H. reflexivity.
Qed.

Lemma dispatch_unrecognized (rt : runtime) (data : object) (w : world) :
  recognized (prop data "event") = false ->
  dispatch_event rt data w
  = (Return {| action := action_not_supported; action_data := None |}, w).
Proof.
  unfold recognized, dispatch_event. intro H.
  repeat (apply orb_false_iff in H as [H ?]).
  now rewrite H, H0, H1, H2.
Qed.

(** C1 (as amended): [verifyWebhookSignature] returns false for every
    payload and signature when no webhook secret is configured;
    [getWebhookActionAndData], however, checks the signature only under
    [if (this.options_.webhook_secret)]: with no secret configured every
    event goes straight to the switch on its type, whatever its headers
    and raw body. *)
Theorem webhook_secret_unset (rt : runtime) (options_ : RazorpayOptions) :
  is_set (webhook_secret options_) = false ->
  (forall payload signature,
      verifyWebhookSignature options_ payload signature = false)
  /\ (forall payload w,
         getWebhookActionAndData rt options_ payload w
         = try_catch (dispatch_event rt (webhook_data payload)) (webhook_failure rt) w).
Proof.
  intro H. split.
  - intros. now apply verifyWebhookSignature_unset.
  - intros. apply gate_passes. unfold rejected_at_gate. now rewrite H.
Qed.

Lemma webhook_secret_unset_witness :
  (forall payload signature,
      verifyWebhookSignature options_without_webhook_secret payload signature = false)
  /\ (forall payload w,
         getWebhookActionAndData sample_runtime options_without_webhook_secret payload w
         = try_catch (dispatch_event sample_runtime (webhook_data payload))
             (webhook_failure sample_runtime) w).
Proof.
  apply (webhook_secret_unset sample_runtime options_without_webhook_secret).
  reflexivity.
Defined.

(** C1, as stated, fails: with no webhook secret configured, an event
    with no signature header, which [verifyWebhookSignature] does not
    accept, is taken as a captured payment. *)
Lemma unsigned_event_accepted :
  verifyWebhookSignature options_without_webhook_secret "{}" VUndefined = false
  /\ getWebhookActionAndData sample_runtime options_without_webhook_secret
       {| webhook_data := captured_event; headers := []; rawData := "{}" |} start
     = (Return {| action := action_captured;
                  action_data :=
                    Some (session_amount (VString "order_1") {| numeric := 499 |}) |},
        start).
Proof. split; vm_compute; reflexivity. Qed.

(** C8: the switch on the event type answers every event whose type is
    none of the four recognized ones with [not_supported] and no data,
    and raises nothing.  So does [getWebhookActionAndData] for every
    such event that reaches the switch, that is, every one the
    signature check in front of the switch does not turn away; the
    gateway is not called and nothing is given to the logger. *)
Theorem unrecognized_event (rt : runtime) (options_ : RazorpayOptions)
  (payload : ProviderWebhookPayload) (w : world) :
  recognized (prop (webhook_data payload) "event") = false ->
  try_catch (dispatch_event rt (webhook_data payload)) (webhook_failure rt) w
  = (Return {| action := action_not_supported; action_data := None |}, w)
  /\ (rejected_at_gate options_ payload = false ->
      getWebhookActionAndData rt options_ payload w
      = (Return {| action := action_not_supported; action_data := None |}, w)).
Proof.
  intro H.
  assert (S : try_catch (dispatch_event rt (webhook_data payload)) (webhook_failure rt) w
              = (Return {| action := action_not_supported; action_data := None |}, w)).
  { unfold try_catch. now rewrite dispatch_unrecognized. }
  split; [exact S|].
  intro G. rewrite gate_passes by assumption. exact S.
Qed.

Lemma unrecognized_event_witness :
  getWebhookActionAndData sample_runtime options_without_webhook_secret
    {| webhook_data := [("event", VString "order.paid")]; headers := []; rawData := "{}" |}
    start
  = (Return {| action := action_not_supported; action_data := None |}, start).
Proof.
  exact (proj2 (unrecognized_event sample_runtime options_without_webhook_secret
                  {| webhook_data := [("event", VString "order.paid")];
                     headers := []; rawData := "{}" |} start eq_refl) eq_refl).
Defined.

(** Decides [v === "s"] between two string literals. *)
Ltac eval_is_str :=
  repeat match goal with
         | |- context [is_str (VString ?s) ?t] =>
             let b := eval vm_compute in (is_str (VString s) t) in
             change (is_str (VString s) t) with b
         end.

Lemma get_path_entity (data payload group entity : object) (kind field : string) (w : world) :
  prop data "payload" = VObject payload ->
  prop payload kind = VObject group ->
  prop group "entity" = VObject entity ->
  get_path (VObject data) ["payload"; kind; "entity"; field] w
  = (Return (prop entity field), w).
Proof.
  intros H1 H2 H3. simpl. unfold bind. simpl.
  rewrite H1. simpl. rewrite H2. simpl. rewrite H3. reflexivity.
Qed.

Lemma major_units_numeric (rt : runtime) (v : value) (w : world) :
  isNaN (ToNumber rt v / 100)%float = false ->
  major_units rt v w = (Return {| numeric := (ToNumber rt v / 100)%float |}, w).
Proof. unfold major_units, new_BigNumber. now intros ->. Qed.

(** C9: for an event that passes the signature gate and whose entity
    has a numeric amount (one whose hundredth is not [NaN], so that the
    [BigNumber] is built), the session reference of
    [payment.authorized], [payment.captured] and [payment.failed] is the
    payment entity's [order_id], while that of [refund.processed] is the
    refund entity's [payment_id]. *)
Theorem session_reference_by_event (rt : runtime) (options_ : RazorpayOptions)
  (wh : ProviderWebhookPayload) (w : world) (payload group entity : object) :
  let amount := (ToNumber rt (prop entity "amount") / 100)%float in
  rejected_at_gate options_ wh = false ->
  prop (webhook_data wh) "payload" = VObject payload ->
  prop group "entity" = VObject entity ->
  isNaN amount = false ->
  (prop payload "payment" = VObject group ->
   (prop (webhook_data wh) "event" = VString "payment.authorized" ->
    getWebhookActionAndData rt options_ wh w
    = (Return {| action := action_authorized;
                 action_data :=
                   Some (session_amount (prop entity "order_id")
                           {| numeric := amount |}) |}, w))
   /\ (prop (webhook_data wh) "event" = VString "payment.captured" ->
       getWebhookActionAndData rt options_ wh w
       = (Return {| action := action_captured;
                    action_data :=
                      Some (session_amount (prop entity "order_id")
                              {| numeric := amount |}) |}, w))
   /\ (prop (webhook_data wh) "event" = VString "payment.failed" ->
       getWebhookActionAndData rt options_ wh w
       = (Return {| action := action_failed;
                    action_data :=
                      Some (session_amount_error (prop entity "order_id")
                              {| numeric := amount |}
                              (or_else (prop entity "error_description")
                                 (VString "Payment failed"))) |}, w)))
  /\ (prop payload "refund" = VObject group ->
      prop (webhook_data wh) "event" = VString "refund.processed" ->
      getWebhookActionAndData rt options_ wh w
      = (Return {| action := action_refunded;
                   action_data :=
                     Some (session_amount (prop entity "payment_id")
                             {| numeric := amount |}) |}, w)).
Proof.
  intros amount G Hp He Hn.
  split; [intro Hg; repeat split | intro Hg]; intro Hev;
    rewrite gate_passes by assumption;
    unfold try_catch, dispatch_event; rewrite Hev; eval_is_str; cbv iota;
    rewrite !(bind_return _ (@get_path_entity _ _ _ _ _ _ _ Hp Hg He));
    rewrite (bind_return _ (major_units_numeric _ _ _ Hn));
    rewrite ?(bind_return _ (@get_path_entity _ _ _ _ _ _ _ Hp Hg He));
    reflexivity.
Qed.

Lemma session_reference_by_event_witness :
  getWebhookActionAndData sample_runtime options_without_webhook_secret
    {| webhook_data := refund_event; headers := []; rawData := "{}" |} start
  = (Return {| action := action_refunded;
               action_data := Some (session_amount (VString "pay_1") {| numeric := 499 |}) |},
     start).
Proof.
  refine (proj2 (@session_reference_by_event sample_runtime options_without_webhook_secret
                   {| webhook_data := refund_event; headers := []; rawData := "{}" |} start
                   [("refund",
                     VObject [("entity",
                               VObject [("id", VString "rfnd_1");
                                        ("payment_id", VString "pay_1");
                                        ("amount", VNumber 49900)])])]
                   [("entity",
                     VObject [("id", VString "rfnd_1");
                              ("payment_id", VString "pay_1");
                              ("amount", VNumber 49900)])]
                   [("id", VString "rfnd_1");
                    ("payment_id", VString "pay_1");
                    ("amount", VNumber 49900)]
                   _ _ _ _) _ _); reflexivity.
Defined.

(** *** authorizePayment *)

(** C10: when [data] has no (truthy) [razorpay_payment_id] or no
    (truthy) [razorpay_signature], [authorizePayment] returns [pending]
    with [data] as it came; no request is sent, nothing is logged, and
    the result is the same under every configuration, so no signature
    was checked. *)
Theorem authorize_without_proof_is_pending (rt : runtime) (options_ : RazorpayOptions)
  (client_ : gateway) (input : PaymentInput) (w : world) :
  truthy (opt_get (of_data (data input)) "razorpay_payment_id") = false
  \/ truthy (opt_get (of_data (data input)) "razorpay_signature") = false ->
  authorizePayment rt options_ client_ input w
  = (Return {| authorize_status := status_pending; authorize_data := data input |}, w).
Proof.
  intro H. unfold authorizePayment, try_catch.
  replace (truthy (opt_get (of_data (data input)) "razorpay_payment_id")
           && truthy (opt_get (of_data (data input)) "razorpay_signature")) with false.
  - reflexivity.
  - symmetry. apply andb_false_iff. exact H.
Qed.

Lemma authorize_without_proof_is_pending_witness :
  authorizePayment sample_runtime options_without_webhook_secret sample_gateway
    {| data := Some [("id", VString "order_1")] |} start
  = (Return {| authorize_status := status_pending;
               authorize_data := Some [("id", VString "order_1")] |}, start).
Proof.
  apply (authorize_without_proof_is_pending sample_runtime options_without_webhook_secret
           sample_gateway {| data := Some [("id", VString "order_1")] |} start).
  left. reflexivity.
Defined.

(** C3 (as amended): when [data] carries a truthy [razorpay_payment_id]
    and a truthy [razorpay_signature] that is not the HMAC of
    ["{order id}|{payment id}"], [authorizePayment] returns [error] with
    the marker ["Invalid payment signature"], and neither sends a request
    nor logs. *)
Theorem authorize_invalid_signature (rt : runtime) (options_ : RazorpayOptions)
  (client_ : gateway) (input : PaymentInput) (w : world) :
  let data_ := of_data (data input) in
  truthy (opt_get data_ "razorpay_payment_id") = true ->
  truthy (opt_get data_ "razorpay_signature") = true ->
  verifySignature options_
    (ToString rt (opt_get data_ "razorpay_order_id") ++ "|"
     ++ ToString rt (opt_get data_ "razorpay_payment_id"))%string
    (opt_get data_ "razorpay_signature") = false ->
  authorizePayment rt options_ client_ input w
  = (Return {| authorize_status := status_error;
               authorize_data :=
                 Some (set_prop (spread (data input)) "error"
                         (VString "Invalid payment signature")) |}, w).
Proof.
  intros data_ Hp Hs Hv. subst data_. unfold authorizePayment, try_catch.
  rewrite Hp, Hs. simpl andb. cbv iota.
  destruct (data input) as [o|]; [|discriminate Hp].
  simpl in *. unfold bind. simpl. rewrite Hv. reflexivity.
Qed.

Lemma authorize_invalid_signature_witness :
  authorizePayment sample_runtime options_without_webhook_secret sample_gateway
    {| data := Some [("razorpay_order_id", VString "order_1");
                     ("razorpay_payment_id", VString "pay_1");
                     ("razorpay_signature", VString "0000")] |} start
  = (Return {| authorize_status := status_error;
               authorize_data :=
                 Some [("razorpay_order_id", VString "order_1");
                       ("razorpay_payment_id", VString "pay_1");
                       ("razorpay_signature", VString "0000");
                       ("error", VString "Invalid payment signature")] |}, start).
Proof.
  apply (authorize_invalid_signature sample_runtime options_without_webhook_secret
           sample_gateway
           {| data := Some [("razorpay_order_id", VString "order_1");
                            ("razorpay_payment_id", VString "pay_1");
                            ("razorpay_signature", VString "0000")] |} start);
    vm_compute; reflexivity.
Defined.

(** C3, as stated, fails: a session with an order id and a forged
    signature but no payment id is answered [pending], not [error]. *)
Lemma forged_signature_is_pending :
  verifySignature options_without_webhook_secret "order_1|undefined"
    (VString "0000000000000000000000000000000000000000000000000000000000000000")
  = false
  /\ authorizePayment sample_runtime options_without_webhook_secret sample_gateway
       {| data := Some [("razorpay_order_id", VString "order_1");
                        ("razorpay_signature",
                         VString "0000000000000000000000000000000000000000000000000000000000000000")] |}
       start
     = (Return {| authorize_status := status_pending;
                  authorize_data :=
                    Some [("razorpay_order_id", VString "order_1");
                          ("razorpay_signature",
                           VString "0000000000000000000000000000000000000000000000000000000000000000")] |},
        start).
Proof. split; vm_compute; reflexivity. Qed.

(** *** capturePayment and cancelPayment *)

(** C6: [capturePayment] on a session with no payment record (no truthy
    [data.payment_details.id]) throws before any request is sent.  The
    validation error "Payment ID is required to capture payment" is
    thrown inside the [try], so what reaches the caller is the
    [MedusaError] of the [catch] block, which carries that message. *)
Theorem capture_without_payment (rt : runtime) (client_ : gateway)
  (input : PaymentInput) (w : world) :
  truthy (opt_path (of_data (data input)) ["payment_details"; "id"]) = false ->
  capturePayment rt client_ input w
  = (Throw (MedusaError UNEXPECTED_STATE
              "Failed to capture Razorpay payment: Payment ID is required to capture payment"),
     World (calls w)
       (logged w
        ++ ["Failed to capture Razorpay payment: Payment ID is required to capture payment"])).
Proof.
  intro H. unfold capturePayment, try_catch. rewrite H. reflexivity.
Qed.

Lemma capture_without_payment_witness :
  capturePayment sample_runtime sample_gateway
    {| data := Some [("id", VString "order_1")] |} start
  = (Throw (MedusaError UNEXPECTED_STATE
              "Failed to capture Razorpay payment: Payment ID is required to capture payment"),
     World []
       ["Failed to capture Razorpay payment: Payment ID is required to capture payment"]).
Proof.
  apply (capture_without_payment sample_runtime sample_gateway
           {| data := Some [("id", VString "order_1")] |} start).
  reflexivity.
Defined.

Lemma get_path_details (data : option object) (field : string) (w : world) :
  truthy (opt_path (of_data data) ["payment_details"; "id"]) = true ->
  get_path (of_data data) ["payment_details"; field] w
  = (Return (opt_path (of_data data) ["payment_details"; field]), w).
Proof.
  destruct data as [o|]; [|discriminate]. simpl.
  unfold bind. simpl.
  destruct (prop o "payment_details"); try discriminate. reflexivity.
Qed.

(** The run of [cancelPayment] on an authorized payment, by the
    gateway's answers to the refund and to the fetch. *)
Lemma cancel_authorized_run (rt : runtime) (client_ : gateway)
  (input : PaymentInput) (w : world) :
  let id := opt_path (of_data (data input)) ["payment_details"; "id"] in
  let status := opt_path (of_data (data input)) ["payment_details"; "status"] in
  let amount := opt_path (of_data (data input)) ["payment_details"; "amount"] in
  let refund :=
    payments_refund id
      [("amount", amount);
       ("notes", VObject [("cancellation_reason",
                           VString "Payment cancelled by merchant")])] in
  let failure (err : object) :=
    ("Failed to cancel Razorpay payment: " ++ ToString rt (prop err "message"))%string in
  truthy id = true -> status = VString "authorized" ->
  cancelPayment rt client_ input w
  = match client_ (calls w) refund with
    | Reject err =>
        (Throw (MedusaError UNEXPECTED_STATE (failure err)),
         World (calls w ++ [refund]) (logged w ++ [failure err]))
    | Resolve _ =>
        match client_ (calls w ++ [refund]) (payments_fetch id) with
        | Reject err =>
            (Throw (MedusaError UNEXPECTED_STATE (failure err)),
             World (calls w ++ [refund; payments_fetch id]) (logged w ++ [failure err]))
        | Resolve updated =>
            (Return {| output_data :=
                         Some (set_prop (spread (data input)) "payment_details"
                                 updated) |},
             World (calls w ++ [refund; payments_fetch id]) (logged w))
        end
    end.
Proof.
  intros id status amount refund failure Hid Hst.
  unfold cancelPayment, try_catch. fold id status. rewrite Hid, Hst.
  eval_is_str. cbn [andb]. cbv iota.
  rewrite (bind_return _ (get_path_details _ "id" w Hid)).
  rewrite (bind_return _ (get_path_details _ "amount" w Hid)).
  fold id amount refund. unfold bind at 1. unfold request at 1.
  destruct (client_ (calls w) refund) as [refunded|err] eqn:R1.
  - rewrite (bind_return _ (get_path_details _ "id" _ Hid)). fold id.
    unfold bind, request. simpl calls. simpl logged.
    destruct (client_ (calls w ++ [refund]) (payments_fetch id)) as [updated|err] eqn:R2;
      simpl; rewrite <- app_assoc; reflexivity.
  - reflexivity.
Qed.

(** C7: on a session whose payment record has an id and is
    [authorized], [cancelPayment] first requests a refund of the
    record's own [amount]; once the refund is accepted it fetches the
    payment again, and when that succeeds it returns [data] with the
    fetched record as [payment_details].  On every other session it
    returns [data] as it came, sends no request and logs nothing. *)
Theorem cancel_refunds_authorized_only (rt : runtime) (client_ : gateway)
  (input : PaymentInput) (w : world) :
  let id := opt_path (of_data (data input)) ["payment_details"; "id"] in
  let status := opt_path (of_data (data input)) ["payment_details"; "status"] in
  let amount := opt_path (of_data (data input)) ["payment_details"; "amount"] in
  let refund :=
    payments_refund id
      [("amount", amount);
       ("notes", VObject [("cancellation_reason",
                           VString "Payment cancelled by merchant")])] in
  (truthy id = true -> status = VString "authorized" ->
   (exists rest,
       calls (snd (cancelPayment rt client_ input w)) = calls w ++ refund :: rest)
   /\ (forall refunded,
          client_ (calls w) refund = Resolve refunded ->
          calls (snd (cancelPayment rt client_ input w))
          = calls w ++ [refund; payments_fetch id]
          /\ forall updated,
              client_ (calls w ++ [refund]) (payments_fetch id) = Resolve updated ->
              cancelPayment rt client_ input w
              = (Return {| output_data :=
                             Some (set_prop (spread (data input)) "payment_details"
                                     updated) |},
                 World (calls w ++ [refund; payments_fetch id]) (logged w))))
  /\ (truthy id && is_str status "authorized" = false ->
      cancelPayment rt client_ input w = (Return {| output_data := data input |}, w)).
Proof.
  intros id status amount refund. split.
  - intros Hid Hst. rewrite (cancel_authorized_run rt client_ input w Hid Hst).
    fold id amount refund.
    destruct (client_ (calls w) refund) as [refunded|err] eqn:R1.
    + destruct (client_ (calls w ++ [refund]) (payments_fetch id)) as [updated|err] eqn:R2;
        simpl.
      * split; [eexists; reflexivity|]. intros ? _. split; [reflexivity|].
        intros ? [= <-]. reflexivity.
      * split; [eexists; reflexivity|]. intros ? _. split; [reflexivity|].
        intros ? [=].
    + simpl. split; [eexists; reflexivity|]. intros ? [=].
  - intro H. unfold cancelPayment, try_catch. fold id status. rewrite H. reflexivity.
Qed.

Lemma cancel_refunds_authorized_only_witness :
  cancelPayment sample_runtime sample_gateway {| data := authorized_session |} start
  = (Return {| output_data :=
                 Some [("id", VString "order_1");
                       ("payment_details",
                        VObject [("id", VString "pay_1");
                                 ("status", VString "refunded");
                                 ("amount", VNumber 49900)])] |},
     World [payments_refund (VString "pay_1")
              [("amount", VNumber 49900);
               ("notes", VObject [("cancellation_reason",
                                   VString "Payment cancelled by merchant")])];
            payments_fetch (VString "pay_1")] []).
Proof.
  exact (proj2 (proj2 (proj1 (cancel_refunds_authorized_only sample_runtime sample_gateway
                                {| data := authorized_session |} start)
                         eq_refl eq_refl) _ eq_refl) _ eq_refl).
Defined.

(** *** getPaymentStatus *)

Lemma is_str_false (v : value) (s : string) :
  v <> VString s -> is_str v s = false.
Proof.
  intro H. destruct (is_str v s) eqn:E; [|reflexivity].
  apply is_str_true in E. contradiction.
Qed.

Lemma get_record (v : value) (k : string) (w : world) :
  v <> VUndefined -> v <> VNull -> get v k w = (Return (opt_get v k), w).
Proof. destruct v; intros; try reflexivity; contradiction. Qed.

(** [getPaymentStatus] returns on every session and every gateway. *)
Lemma getPaymentStatus_returns (rt : runtime) (client_ : gateway)
  (input : PaymentInput) (w : world) :
  exists st w', getPaymentStatus rt client_ input w = (Return st, w').
Proof.
  unfold getPaymentStatus. apply try_catch_returns.
  - cbv zeta. auto 30 with throws.
  - intros o w0. do 2 eexists. reflexivity.
Qed.

(** The run of [getPaymentStatus] when the session has a payment record
    and the gateway answers the fetch with a record. *)
Lemma getPaymentStatus_of_payment (rt : runtime) (client_ : gateway)
  (input : PaymentInput) (w : world) (payment : value) :
  let id := opt_path (of_data (data input)) ["payment_details"; "id"] in
  let s := opt_get payment "status" in
  truthy id = true ->
  client_ (calls w) (payments_fetch id) = Resolve payment ->
  payment <> VUndefined -> payment <> VNull ->
  getPaymentStatus rt client_ input w
  = (Return {| status :=
                 if is_str s "created" then status_pending
                 else if is_str s "authorized" then status_authorized
                 else if is_str s "captured" then status_captured
                 else if is_str s "failed" then status_error
                 else status_pending |},
     World (calls w ++ [payments_fetch id]) (logged w)).
Proof.
  intros id s Hid R Hu Hn. unfold getPaymentStatus, try_catch. fold id. rewrite Hid.
  rewrite (bind_return _ (get_path_details _ "id" w Hid)). fold id.
  unfold bind at 1. unfold request at 1. rewrite R.
  rewrite (bind_return _ (get_record "status" _ Hu Hn)). fold s.
  unfold ret.
  destruct (is_str s "created"); [reflexivity|].
  destruct (is_str s "authorized"); [reflexivity|].
  destruct (is_str s "captured"); [reflexivity|].
  destruct (is_str s "failed"); reflexivity.
Qed.

(** The run of [getPaymentStatus] when the session has only an order id
    and the gateway answers the fetch with a record. *)
Lemma getPaymentStatus_of_order (rt : runtime) (client_ : gateway)
  (input : PaymentInput) (w : world) (order : value) :
  let id := opt_get (of_data (data input)) "id" in
  let s := opt_get order "status" in
  truthy (opt_path (of_data (data input)) ["payment_details"; "id"]) = false ->
  truthy id = true ->
  client_ (calls w) (orders_fetch id) = Resolve order ->
  order <> VUndefined -> order <> VNull ->
  getPaymentStatus rt client_ input w
  = (Return {| status :=
                 if is_str s "paid" then status_captured
                 else if is_str s "attempted" then status_authorized
                 else status_pending |},
     World (calls w ++ [orders_fetch id]) (logged w)).
Proof.
  intros id s Hp Hid R Hu Hn. unfold getPaymentStatus, try_catch. rewrite Hp.
  fold id. rewrite Hid.
  assert (G : get (of_data (data input)) "id" w = (Return id, w)).
  { subst id. destruct (data input); [reflexivity|discriminate]. }
  rewrite (bind_return _ G).
  unfold bind at 1. unfold request at 1. rewrite R.
  rewrite (bind_return _ (get_record "status" _ Hu Hn)). fold s.
  unfold ret.
  destruct (is_str s "paid"); [reflexivity|].
  destruct (is_str s "attempted"); reflexivity.
Qed.

(** C4: [getPaymentStatus] never throws, and it maps the gateway's
    statuses by the table: a payment [created] to [pending],
    [authorized] to [authorized], [captured] to [captured], [failed] to
    [error]; an order [paid] to [captured], [attempted] to [authorized],
    [created] to [pending]; every other status value, of a payment or of
    an order, to [pending]; a session with neither id to [pending]. *)
Theorem status_mapping_total (rt : runtime) (client_ : gateway)
  (input : PaymentInput) (w : world) :
  let payment_id := opt_path (of_data (data input)) ["payment_details"; "id"] in
  let order_id := opt_get (of_data (data input)) "id" in
  (exists st w', getPaymentStatus rt client_ input w = (Return st, w'))
  /\ (forall payment,
         truthy payment_id = true ->
         client_ (calls w) (payments_fetch payment_id) = Resolve payment ->
         payment <> VUndefined -> payment <> VNull ->
         let s := opt_get payment "status" in
         exists st,
           getPaymentStatus rt client_ input w
           = (Return {| status := st |},
              World (calls w ++ [payments_fetch payment_id]) (logged w))
           /\ (s = VString "created" -> st = status_pending)
           /\ (s = VString "authorized" -> st = status_authorized)
           /\ (s = VString "captured" -> st = status_captured)
           /\ (s = VString "failed" -> st = status_error)
           /\ (s <> VString "created" -> s <> VString "authorized" ->
               s <> VString "captured" -> s <> VString "failed" ->
               st = status_pending))
  /\ (forall order,
         truthy payment_id = false -> truthy order_id = true ->
         client_ (calls w) (orders_fetch order_id) = Resolve order ->
         order <> VUndefined -> order <> VNull ->
         let s := opt_get order "status" in
         exists st,
           getPaymentStatus rt client_ input w
           = (Return {| status := st |},
              World (calls w ++ [orders_fetch order_id]) (logged w))
           /\ (s = VString "paid" -> st = status_captured)
           /\ (s = VString "attempted" -> st = status_authorized)
           /\ (s = VString "created" -> st = status_pending)
           /\ (s <> VString "paid" -> s <> VString "attempted" ->
               st = status_pending))
  /\ (truthy payment_id = false -> truthy order_id = false ->
      getPaymentStatus rt client_ input w
      = (Return {| status := status_pending |}, w)).
Proof.
  intros payment_id order_id. split; [apply getPaymentStatus_returns|].
  split; [|split].
  - intros payment Hid R Hu Hn s. eexists. split.
    + apply (getPaymentStatus_of_payment rt client_ input w Hid R Hu Hn).
    + fold s. repeat split.
      * intros ->. reflexivity.
      * intros ->. reflexivity.
      * intros ->. reflexivity.
      * intros ->. reflexivity.
      * intros H1 H2 H3 H4.
        now rewrite !is_str_false by assumption.
  - intros order Hp Hid R Hu Hn s. eexists. split.
    + apply (getPaymentStatus_of_order rt client_ input w Hp Hid R Hu Hn).
    + fold s. repeat split.
      * intros ->. reflexivity.
      * intros ->. reflexivity.
      * intros ->. reflexivity.
      * intros H1 H2. now rewrite !is_str_false by assumption.
  - intros Hp Ho. unfold getPaymentStatus, try_catch.
    fold payment_id order_id. rewrite Hp, Ho. reflexivity.
Qed.

Lemma status_mapping_total_witness :
  getPaymentStatus sample_runtime sample_gateway {| data := authorized_session |} start
  = (Return {| status := status_authorized |},
     World [payments_fetch (VString "pay_1")] []).
Proof.
  destruct (proj1 (proj2 (status_mapping_total sample_runtime sample_gateway
                            {| data := authorized_session |} start))
              (VObject [("id", VString "pay_1");
                        ("status", VString "authorized");
                        ("amount", VNumber 49900)])
              eq_refl eq_refl ltac:(discriminate) ltac:(discriminate))
    as [st [E [_ [A _]]]].
  rewrite E. rewrite (A eq_refl). reflexivity.
Defined.

(** *** Amounts: [parseInt((amount * 100).toFixed(0))] *)

Lemma digit_cases (d : Z) :
  0 <= d < 10 ->
  d = 0 \/ d = 1 \/ d = 2 \/ d = 3 \/ d = 4 \/ d = 5 \/ d = 6 \/ d = 7 \/ d = 8 \/ d = 9.
Proof. lia. Qed.

Ltac each_digit d H :=
  destruct (digit_cases H) as [->|[->|[->|[->|[->|[->|[->|[->|[->| ->]]]]]]]]].

Lemma digit_value_digit_char (d : Z) :
  0 <= d < 10 -> digit_value 10 (digit_char d) = Some d.
Proof. intro H. each_digit d H; reflexivity. Qed.

Lemma decimal_acc_S (fuel : nat) (n : Z) (acc : string) :
  decimal_acc (S fuel) n acc
  = if n <? 10 then String (digit_char (n mod 10)) acc
    else decimal_acc fuel (n / 10) (String (digit_char (n mod 10)) acc).
Proof. reflexivity. Qed.

(** Reading back the digits [decimal_acc] writes. *)
Lemma parse_decimal_acc (fuel : nat) :
  forall n rest,
    0 <= n < 10 ^ Z.of_nat (S fuel) ->
    parse_digits 10 (decimal_acc (S fuel) n rest) None
    = parse_digits 10 rest (Some n).
Proof.
  induction fuel as [|fuel IH]; intros n rest Hn.
  - change (10 ^ Z.of_nat 1) with 10 in Hn. rewrite decimal_acc_S.
    replace (n <? 10) with true by (symmetry; apply Z.ltb_lt; lia).
    rewrite Z.mod_small by lia. simpl. now rewrite digit_value_digit_char.
  - rewrite decimal_acc_S. destruct (n <? 10) eqn:E.
    + apply Z.ltb_lt in E. rewrite Z.mod_small by lia.
      simpl. now rewrite digit_value_digit_char by lia.
    + apply Z.ltb_ge in E. rewrite IH.
      * simpl. rewrite digit_value_digit_char by (apply Z.mod_pos_bound; lia).
        f_equal. f_equal. pose proof (Z.div_mod n 10). lia.
      * split; [apply Z.div_pos; lia|].
        apply Z.div_lt_upper_bound; [lia|].
        replace (Z.of_nat (S (S fuel))) with (Z.succ (Z.of_nat (S fuel))) in Hn by lia.
        rewrite Z.pow_succ_r in Hn by lia. lia.
Qed.

Lemma decimal_fuel (n : Z) :
  0 <= n -> n < 10 ^ Z.of_nat (S (Z.to_nat (Z.log2 n))).
Proof.
  intro H. rewrite Nat2Z.inj_succ, Z2Nat.id by apply Z.log2_nonneg.
  destruct (Z.eq_dec n 0) as [->|Hz]; [reflexivity|].
  apply Z.lt_le_trans with (2 ^ Z.succ (Z.log2 n)).
  - apply Z.log2_spec. lia.
  - apply Z.pow_le_mono_l. pose proof (Z.log2_nonneg n). lia.
Qed.

Lemma parse_decimal (n : Z) :
  0 <= n -> parse_digits 10 (decimal n) None = Some n.
Proof.
  intro H. unfold decimal.
  rewrite parse_decimal_acc by (split; [exact H | now apply decimal_fuel]).
  reflexivity.
Qed.

(** What [decimal_acc] writes starts with a digit, followed by the
    accumulator or by another digit. *)
Lemma decimal_acc_shape (fuel : nat) :
  forall n rest,
    0 <= n ->
    exists d tail,
      0 <= d < 10
      /\ decimal_acc (S fuel) n rest = String (digit_char d) tail
      /\ (tail = rest
          \/ exists d' tail', 0 <= d' < 10 /\ tail = String (digit_char d') tail').
Proof.
  induction fuel as [|fuel IH]; intros n rest Hn; rewrite decimal_acc_S;
    pose proof (Z.mod_pos_bound n 10 ltac:(lia)) as Hm;
    destruct (n <? 10) eqn:E.
  - exists (n mod 10), rest. auto.
  - exists (n mod 10), rest. auto.
  - exists (n mod 10), rest. auto.
  - destruct (IH (n / 10) (String (digit_char (n mod 10)) rest)) as (d & tail & Hd & -> & Ht).
    { apply Z.div_pos; lia. }
    exists d, tail. repeat split; try tauto.
    destruct Ht as [->|Ht]; [|now right].
    right. exists (n mod 10), rest. auto.
Qed.

Lemma parseInt_digits (d : Z) (tail : string) (n : Z) :
  0 <= d < 10 ->
  tail = "" \/ (exists d' tail', 0 <= d' < 10 /\ tail = String (digit_char d') tail') ->
  parse_digits 10 (String (digit_char d) tail) None = Some n ->
  parseInt (String (digit_char d) tail) = of_Z n
  /\ parseInt (String "-" (String (digit_char d) tail)) = PrimFloat.opp (of_Z n).
Proof.
  intros Hd Ht Hp.
  assert (Hm : parse_magnitude (String (digit_char d) tail) = Some n).
  { rewrite <- Hp. destruct Ht as [->|(d' & tail' & Hd' & ->)].
    - each_digit d Hd; reflexivity.
    - each_digit d Hd; try reflexivity. each_digit d' Hd'; reflexivity. }
  split.
  - unfold parseInt.
    replace (trim_start (String (digit_char d) tail)) with (String (digit_char d) tail)
      by (each_digit d Hd; reflexivity).
    replace (match String (digit_char d) tail with
             | String "-" rest => (true, rest)
             | String "+" rest => (false, rest)
             | _ => (false, String (digit_char d) tail)
             end) with (false, String (digit_char d) tail)
      by (each_digit d Hd; reflexivity).
    now rewrite Hm.
  - unfold parseInt. cbn [trim_start]. change (is_space "-") with false. cbv iota.
    now rewrite Hm.
Qed.

Lemma parseInt_decimal (n : Z) :
  0 <= n ->
  parseInt (decimal n) = of_Z n
  /\ parseInt (String "-" (decimal n)) = PrimFloat.opp (of_Z n).
Proof.
  intro H. pose proof (parse_decimal H) as Hp. unfold decimal in *.
  destruct (decimal_acc_shape (Z.to_nat (Z.log2 n)) "" H) as (d & tail & Hd & E & Ht).
  rewrite E in *. now apply parseInt_digits.
Qed.

Lemma fraction_positive (x : float) : 0 <= fst (fraction x) /\ 0 < snd (fraction x).
Proof.
  unfold fraction. destruct (Prim2SF x); cbn [fst snd]; try lia.
  all: split;
    [ apply Z.mul_nonneg_nonneg; [lia | apply Z.pow_nonneg; lia]
    | apply Z.pow_pos_nonneg; lia ].
Qed.

(** [nearest_integer] rounds half up. *)
Lemma nearest_integer_rounds_half_up (x : Z * Z) :
  0 <= fst x -> 0 < snd x ->
  0 <= nearest_integer x /\ rounds_half_up x (nearest_integer x).
Proof.
  destruct x as [num den]. unfold nearest_integer, rounds_half_up. cbn [fst snd].
  intros Hn Hd. split.
  - apply Z.div_pos; lia.
  - pose proof (Z.div_mod (2 * num + den) (2 * den) ltac:(lia)) as E.
    pose proof (Z.mod_pos_bound (2 * num + den) (2 * den) ltac:(lia)) as B.
    lia.
Qed.

(** The conversion of the service: the string of [toFixed(0)] read back
    by [parseInt] is the minor-unit amount of the product. *)
Lemma parseInt_toFixed_0 (rt : runtime) (p : float) :
  minor_units p (parseInt (toFixed_0 rt p)).
Proof.
  unfold minor_units, toFixed_0.
  destruct (finite p) eqn:F; cbn [negb].
  - destruct (at_least_1e 21 (fraction p)); [exact I|].
    destruct (fraction_positive p) as [Hn Hd].
    destruct (nearest_integer_rounds_half_up (fraction p) Hn Hd) as [H0 Hr].
    exists (nearest_integer (fraction p)). repeat split; try assumption.
    + apply Hr.
    + apply Hr.
    + destruct (parseInt_decimal H0) as [Hpos Hneg].
      destruct (negative p); [exact Hneg | exact Hpos].
  - unfold finite in F. unfold NumberToString.
    destruct (Prim2SF p) as [ | [|] | | ]; try discriminate; reflexivity.
Qed.

(** C5 (as amended): [initiatePayment] always sends exactly one request,
    the order creation, and [refundPayment] on a session with a payment
    id always sends the refund; the [amount] of the request is the
    minor-unit amount of the binary64 product [amount * 100]: that
    product rounded to the nearest integer with a half going up in
    absolute value when it is finite and below 10^21 (so a negative
    amount is sent as a negative integer), [NaN] when it is not finite.
    No amount is turned away before the request. *)
Theorem amount_sent_to_gateway (rt : runtime) (client_ : gateway) :
  (forall input w,
      exists sent rest,
        calls (snd (initiatePayment rt client_ input w))
        = calls w ++ [orders_create (("amount", VNumber sent) :: rest)]
        /\ minor_units (initiate_amount input * 100)%float sent)
  /\ (forall input w,
         let id := opt_path (of_data (refund_data input)) ["payment_details"; "id"] in
         truthy id = true ->
         exists sent rest,
           calls (snd (refundPayment rt client_ input w))
           = calls w ++ [payments_refund id (("amount", VNumber sent) :: rest)]
           /\ minor_units (refund_amount input * 100)%float sent).
Proof.
  split.
  - intros input w. do 2 eexists. split; [|apply (parseInt_toFixed_0 rt)].
    unfold initiatePayment, try_catch, bind, request. cbv zeta.
    match goal with |- context [client_ (calls w) ?c] =>
      destruct (client_ (calls w) c) as [order|err] end.
    + destruct order; reflexivity.
    + reflexivity.
  - intros input w id Hid. do 2 eexists. split; [|apply (parseInt_toFixed_0 rt)].
    unfold refundPayment, try_catch. fold id. rewrite Hid. cbn [negb]. cbv iota zeta.
    rewrite (bind_return _ (get_path_details _ "id" w Hid)). fold id.
    unfold bind, request.
    match goal with |- context [client_ (calls w) ?c] =>
      destruct (client_ (calls w) c) as [refund|err] end; reflexivity.
Qed.

Lemma amount_sent_to_gateway_witness :
  exists sent rest,
    calls (snd (refundPayment sample_runtime sample_gateway
                  {| refund_data := authorized_session; refund_amount := 499 |} start))
    = [] ++ [payments_refund (VString "pay_1") (("amount", VNumber sent) :: rest)]
    /\ minor_units (499 * 100)%float sent.
Proof.
  exact (proj2 (amount_sent_to_gateway sample_runtime sample_gateway)
           {| refund_data := authorized_session; refund_amount := 499 |} start eq_refl).
Defined.

(** The example of the specification: 499.00 goes out as 49900. *)
Example initiate_499 :
  initiatePayment sample_runtime sample_gateway
    {| initiate_amount := 499; initiate_currency_code := "inr"; initiate_data := None |}
    start
  = (Return {| initiated_id := VString "order_1";
               initiated_data :=
                 VObject [("id", VString "order_1");
                          ("amount", VNumber 49900);
                          ("currency", VString "INR");
                          ("receipt", VString "medusa_1700000000000");
                          ("notes", VObject [("medusa_payment_provider",
                                              VString "razorpay")])] |},
     World [orders_create
              [("amount", VNumber 49900);
               ("currency", VString "INR");
               ("receipt", VString "medusa_1700000000000");
               ("notes", VObject [("medusa_payment_provider", VString "razorpay")])]]
       []).
Proof. vm_compute. reflexivity. Qed.

(** C5, as stated, fails: a negative amount is not turned away; the
    order is created at the gateway for -500 minor units and the method
    returns it. *)
Lemma negative_amount_reaches_gateway :
  initiatePayment sample_runtime sample_gateway
    {| initiate_amount := -5; initiate_currency_code := "inr"; initiate_data := None |}
    start
  = (Return {| initiated_id := VString "order_1";
               initiated_data :=
                 VObject [("id", VString "order_1");
                          ("amount", VNumber (-500));
                          ("currency", VString "INR");
                          ("receipt", VString "medusa_1700000000000");
                          ("notes", VObject [("medusa_payment_provider",
                                              VString "razorpay")])] |},
     World [orders_create
              [("amount", VNumber (-500));
               ("currency", VString "INR");
               ("receipt", VString "medusa_1700000000000");
               ("notes", VObject [("medusa_payment_provider", VString "razorpay")])]]
       []).
Proof. vm_compute. reflexivity. Qed.

(** [minor_units] pins the amount down: for 499.00 it leaves 49900
    only, and an exact half goes up (0.125 gives 13). *)
Example minor_units_499 (sent : float) :
  minor_units (499 * 100)%float sent -> sent = 49900%float.
Proof.
  unfold minor_units.
  change (finite (499 * 100)%float) with true.
  change (at_least_1e 21 (fraction (499 * 100)%float)) with false.
  change (negative (499 * 100)%float) with false.
  cbn [negb]. intros (n & _ & Hr & ->).
  replace (fraction (499 * 100)%float) with (49900 * 2 ^ 37, 2 ^ 37) in Hr
    by (vm_compute; reflexivity).
  unfold rounds_half_up in Hr. cbn [fst snd] in Hr.
  assert (n = 49900) as -> by lia. vm_compute. reflexivity.
Qed.

Example minor_units_half (sent : float) :
  minor_units (0.125 * 100)%float sent -> sent = 13%float.
Proof.
  unfold minor_units.
  change (finite (0.125 * 100)%float) with true.
  change (at_least_1e 21 (fraction (0.125 * 100)%float)) with false.
  change (negative (0.125 * 100)%float) with false.
  cbn [negb]. intros (n & _ & Hr & ->).
  replace (fraction (0.125 * 100)%float) with (25 * 2 ^ 48, 2 ^ 49) in Hr
    by (vm_compute; reflexivity).
  unfold rounds_half_up in Hr. cbn [fst snd] in Hr.
  assert (n = 13) as -> by lia. vm_compute. reflexivity.
Qed.

(** *** authorizePayment with a valid signature *)

Lemma be_bytes_length (n : nat) (x : Z) : List.length (Crypto.be_bytes n x) = n.
Proof.
  revert x. induction n as [|n IH]; intro x; simpl; [reflexivity|].
  rewrite length_app, IH. simpl. lia.
Qed.

Lemma sha256_length (msg : list Z) : List.length (Crypto.sha256 msg) = 32%nat.
Proof.
  unfold Crypto.sha256. cbv zeta. cbn [flat_map].
  rewrite !length_app, !be_bytes_length. reflexivity.
Qed.

Lemma hex_length (bs : list Z) :
  String.length (Crypto.hex bs) = (2 * List.length bs)%nat.
Proof. induction bs as [|b rest IH]; simpl; [reflexivity|]. rewrite IH. lia. Qed.

(** The digest has 64 hexadecimal digits. *)
Lemma hmac_sha256_hex_length (key payload : string) :
  String.length (Crypto.hmac_sha256_hex key payload) = 64%nat.
Proof.
  unfold Crypto.hmac_sha256_hex, Crypto.hmac_sha256.
  now rewrite hex_length, sha256_length.
Qed.

Lemma hmac_sha256_hex_truthy (key payload : string) :
  truthy (VString (Crypto.hmac_sha256_hex key payload)) = true.
Proof.
  pose proof (hmac_sha256_hex_length key payload) as H. simpl.
  destruct (Crypto.hmac_sha256_hex key payload); [discriminate H | reflexivity].
Qed.

(** With a payment id and the HMAC of ["{order id}|{payment id}"] as
    signature, [authorizePayment] fetches the payment and answers by its
    status: [captured], [authorized], and [pending] for any other. *)
Theorem authorize_valid_signature (rt : runtime) (options_ : RazorpayOptions)
  (client_ : gateway) (o : object) (w : world) (payment : value) :
  let payment_id := prop o "razorpay_payment_id" in
  let payload := (ToString rt (prop o "razorpay_order_id") ++ "|"
                  ++ ToString rt payment_id)%string in
  let s := opt_get payment "status" in
  truthy payment_id = true ->
  prop o "razorpay_signature"
  = VString (Crypto.hmac_sha256_hex (key_secret options_) payload) ->
  client_ (calls w) (payments_fetch payment_id) = Resolve payment ->
  payment <> VUndefined -> payment <> VNull ->
  authorizePayment rt options_ client_ {| data := Some o |} w
  = (Return {| authorize_status :=
                 if is_str s "captured" then status_captured
                 else if is_str s "authorized" then status_authorized
                 else status_pending;
               authorize_data := Some (set_prop o "payment_details" payment) |},
     World (calls w ++ [payments_fetch payment_id]) (logged w)).
Proof.
  intros payment_id payload s Hp Hs R Hu Hn.
  unfold authorizePayment, try_catch. cbn [data of_data opt_get spread].
  fold payment_id. rewrite Hp, Hs, hmac_sha256_hex_truthy.
  cbn [andb]. cbv iota. unfold bind at 1 2 3. rewrite !get_object.
  fold payment_id payload. rewrite Hs.
  replace (verifySignature options_ payload
             (VString (Crypto.hmac_sha256_hex (key_secret options_) payload)))
    with true by (symmetry; now apply verifySignature_spec).
  cbn [negb]. cbv iota. unfold bind at 1. unfold request at 1. rewrite R.
  rewrite (bind_return _ (get_record "status" _ Hu Hn)). fold s.
  destruct (is_str s "captured"), (is_str s "authorized"); reflexivity.
Qed.

Lemma authorize_valid_signature_witness :
  authorizePayment sample_runtime options_without_webhook_secret sample_gateway
    {| data :=
         Some [("razorpay_order_id", VString "order_1");
               ("razorpay_payment_id", VString "pay_1");
               ("razorpay_signature",
                VString "444ab3353f39d9a6cd042ce01e598f3a2819f46159b58f0ff40d4eed15d8e158")] |}
    start
  = (Return {| authorize_status := status_authorized;
               authorize_data :=
                 Some [("razorpay_order_id", VString "order_1");
                       ("razorpay_payment_id", VString "pay_1");
                       ("razorpay_signature",
                        VString "444ab3353f39d9a6cd042ce01e598f3a2819f46159b58f0ff40d4eed15d8e158");
                       ("payment_details",
                        VObject [("id", VString "pay_1");
                                 ("status", VString "authorized");
                                 ("amount", VNumber 49900)])] |},
     World [payments_fetch (VString "pay_1")] []).
Proof.
  apply (@authorize_valid_signature sample_runtime options_without_webhook_secret
           sample_gateway
           [("razorpay_order_id", VString "order_1");
            ("razorpay_payment_id", VString "pay_1");
            ("razorpay_signature",
             VString "444ab3353f39d9a6cd042ce01e598f3a2819f46159b58f0ff40d4eed15d8e158")]
           start
           (VObject [("id", VString "pay_1");
                     ("status", VString "authorized");
                     ("amount", VNumber 49900)]));
    solve [vm_compute; reflexivity | discriminate].
Defined.

Lemma be_bytes_range (n : nat) :
  forall x, Forall (fun b => 0 <= b < 256) (Crypto.be_bytes n x).
Proof.
  induction n as [|n IH]; intro x; simpl; [constructor|].
  apply Forall_app. split; [apply IH|].
  constructor; [|constructor]. apply Z.mod_pos_bound. lia.
Qed.

Lemma sha256_range (msg : list Z) :
  Forall (fun b => 0 <= b < 256) (Crypto.sha256 msg).
Proof.
  unfold Crypto.sha256. cbv zeta. cbn [flat_map].
  repeat (apply Forall_app; split; [apply be_bytes_range|]). constructor.
Qed.

Lemma hex_digit_lower (d : Z) :
  0 <= d < 16 -> lower_hex (Crypto.hex_digit d) = true.
Proof.
  intro H.
  assert (C : d = 0 \/ d = 1 \/ d = 2 \/ d = 3 \/ d = 4 \/ d = 5 \/ d = 6 \/ d = 7
              \/ d = 8 \/ d = 9 \/ d = 10 \/ d = 11 \/ d = 12 \/ d = 13 \/ d = 14
              \/ d = 15) by lia.
  repeat (destruct C as [->|C]; [reflexivity|]). subst d. reflexivity.
Qed.

Lemma hex_lower (bs : list Z) :
  Forall (fun b => 0 <= b < 256) bs ->
  forallb lower_hex (list_ascii_of_string (Crypto.hex bs)) = true.
Proof.
  induction 1 as [|b rest Hb _ IH]; [reflexivity|].
  cbn [Crypto.hex list_ascii_of_string forallb].
  rewrite IH, !hex_digit_lower; [reflexivity| |].
  - apply Z.mod_pos_bound. lia.
  - split; [apply Z.div_pos; lia | apply Z.div_lt_upper_bound; lia].
Qed.

(** The signature check of [authorizePayment]: whatever
    [verifySignature] accepts is a string of exactly 64 characters, each
    a lower-case hexadecimal digit, namely the HMAC-SHA256 of the
    payload under [key_secret]; that string is accepted.  So a value
    that is not a string, a digest in upper case, and a digest with a
    prefix or white space around it are all refused. *)
Theorem verifySignature_accepts_hmac_only (options_ : RazorpayOptions)
  (payload : string) (signature : value) :
  verifySignature options_ payload
    (VString (Crypto.hmac_sha256_hex (key_secret options_) payload)) = true
  /\ (verifySignature options_ payload signature = true ->
      exists s,
        signature = VString s
        /\ s = Crypto.hmac_sha256_hex (key_secret options_) payload
        /\ String.length s = 64%nat
        /\ forallb lower_hex (list_ascii_of_string s) = true).
Proof.
  split.
  - now apply verifySignature_spec.
  - intro H. apply verifySignature_spec in H.
    exists (Crypto.hmac_sha256_hex (key_secret options_) payload).
    split; [exact H|]. split; [reflexivity|]. split.
    + apply hmac_sha256_hex_length.
    + unfold Crypto.hmac_sha256_hex, Crypto.hmac_sha256.
      apply hex_lower, sha256_range.
Qed.

Lemma verifySignature_accepts_hmac_only_witness :
  exists s,
    VString "444ab3353f39d9a6cd042ce01e598f3a2819f46159b58f0ff40d4eed15d8e158" = VString s
    /\ s = Crypto.hmac_sha256_hex (key_secret options_without_webhook_secret) "order_1|pay_1"
    /\ String.length s = 64%nat
    /\ forallb lower_hex (list_ascii_of_string s) = true.
Proof.
  apply (proj2 (verifySignature_accepts_hmac_only options_without_webhook_secret
                  "order_1|pay_1"
                  (VString "444ab3353f39d9a6cd042ce01e598f3a2819f46159b58f0ff40d4eed15d8e158"))).
  vm_compute. reflexivity.
Defined.

(** The same digest written in upper case is refused. *)
Example upper_case_digest_refused :
  verifySignature options_without_webhook_secret "order_1|pay_1"
    (VString "444AB3353F39D9A6CD042CE01E598F3A2819F46159B58F0FF40D4EED15D8E158") = false.
Proof. vm_compute. reflexivity. Qed.

(** ** Further properties of the provider *)

(** *** authorizePayment: every failure becomes a status *)

(** [authorizePayment] returns on every session, configuration and
    gateway: it never throws.  It sends at most one request, the fetch
    of the payment named by [razorpay_payment_id]. *)
Theorem authorize_always_answers (rt : runtime) (options_ : RazorpayOptions)
  (client_ : gateway) (input : PaymentInput) (w : world) :
  exists out w',
    authorizePayment rt options_ client_ input w = (Return out, w')
    /\ (calls w' = calls w
        \/ calls w'
           = calls w
             ++ [payments_fetch (opt_get (of_data (data input)) "razorpay_payment_id")]).
Proof.
  unfold authorizePayment, try_catch.
  destruct (truthy (opt_get (of_data (data input)) "razorpay_payment_id")
            && truthy (opt_get (of_data (data input)) "razorpay_signature")) eqn:C.
  2: { do 2 eexists. split; [reflexivity | now left]. }
  destruct (data input) as [o|]; [|discriminate C].
  cbn [of_data opt_get]. unfold bind at 1 2 3. rewrite !get_object.
  match goal with |- context [negb ?v] => destruct v end; cbn [negb]; cbv iota.
  - unfold bind, request.
    destruct (client_ (calls w) (payments_fetch (prop o "razorpay_payment_id")))
      as [payment|err].
    + destruct payment; simpl;
        repeat match goal with
               | |- context [if ?b then _ else _] => destruct b
               end;
        do 2 eexists; (split; [reflexivity | now right]).
    + simpl. do 2 eexists. split; [reflexivity | now right].
  - do 2 eexists. split; [reflexivity | now left].
Qed.

(** When the signature is valid and the gateway rejects the fetch,
    [authorizePayment] answers [error], stores the rejection's [message]
    as [error] in the returned data and logs the failure. *)
Theorem authorize_gateway_rejection (rt : runtime) (options_ : RazorpayOptions)
  (client_ : gateway) (o : object) (w : world) (err : object) :
  let payment_id := prop o "razorpay_payment_id" in
  let payload := (ToString rt (prop o "razorpay_order_id") ++ "|"
                  ++ ToString rt payment_id)%string in
  truthy payment_id = true ->
  prop o "razorpay_signature"
  = VString (Crypto.hmac_sha256_hex (key_secret options_) payload) ->
  client_ (calls w) (payments_fetch payment_id) = Reject err ->
  authorizePayment rt options_ client_ {| data := Some o |} w
  = (Return {| authorize_status := status_error;
               authorize_data := Some (set_prop o "error" (prop err "message")) |},
     World (calls w ++ [payments_fetch payment_id])
       (logged w ++ [("Failed to authorize Razorpay payment: "
                      ++ ToString rt (prop err "message"))%string])).
Proof.
  intros payment_id payload Hp Hs R.
  unfold authorizePayment, try_catch. cbn [data of_data opt_get spread].
  fold payment_id. rewrite Hp, Hs, hmac_sha256_hex_truthy.
  cbn [andb]. cbv iota. unfold bind at 1 2 3. rewrite !get_object.
  fold payment_id payload. rewrite Hs.
  replace (verifySignature options_ payload
             (VString (Crypto.hmac_sha256_hex (key_secret options_) payload)))
    with true by (symmetry; now apply verifySignature_spec).
  cbn [negb]. cbv iota. unfold bind at 1. unfold request at 1. rewrite R.
  reflexivity.
Qed.

Lemma authorize_gateway_rejection_witness :
  authorizePayment sample_runtime options_without_webhook_secret
    (fun _ _ => Reject [("message", VString "timeout")])
    {| data :=
         Some [("razorpay_order_id", VString "order_1");
               ("razorpay_payment_id", VString "pay_1");
               ("razorpay_signature",
                VString "444ab3353f39d9a6cd042ce01e598f3a2819f46159b58f0ff40d4eed15d8e158")] |}
    start
  = (Return {| authorize_status := status_error;
               authorize_data :=
                 Some [("razorpay_order_id", VString "order_1");
                       ("razorpay_payment_id", VString "pay_1");
                       ("razorpay_signature",
                        VString "444ab3353f39d9a6cd042ce01e598f3a2819f46159b58f0ff40d4eed15d8e158");
                       ("error", VString "timeout")] |},
     World [payments_fetch (VString "pay_1")]
       ["Failed to authorize Razorpay payment: timeout"]).
Proof.
  apply (@authorize_gateway_rejection sample_runtime options_without_webhook_secret
           (fun _ _ => Reject [("message", VString "timeout")])
           [("razorpay_order_id", VString "order_1");
            ("razorpay_payment_id", VString "pay_1");
            ("razorpay_signature",
             VString "444ab3353f39d9a6cd042ce01e598f3a2819f46159b58f0ff40d4eed15d8e158")]
           start [("message", VString "timeout")]);
    vm_compute; reflexivity.
Defined.

(** *** Webhooks never reach the gateway *)

Section Keeps.

Context {T : Type} (f : world -> T).

Lemma keeps_ret {A} (a : A) : keeps f (ret a).
Proof. intros w r w' [= _ <-]. reflexivity. Qed.

Lemma keeps_throw {A} (e : value) : keeps f (@throw A e).
Proof. intros w r w' [= _ <-]. reflexivity. Qed.

Lemma keeps_get (v : value) (k : string) : keeps f (get v k).
Proof. destruct v; simpl; first [apply keeps_ret | apply keeps_throw]. Qed.

Lemma keeps_bind {A B} (m : M A) (k : A -> M B) :
  keeps f m -> (forall a, keeps f (k a)) -> keeps f (bind m k).
Proof.
  intros Hm Hk w r w' H. unfold bind in H.
  destruct (m w) as [[a|e] w0] eqn:E.
  - rewrite (Hk a _ _ _ H). exact (Hm _ _ _ E).
  - injection H as _ <-. exact (Hm _ _ _ E).
Qed.

Lemma keeps_get_path (ks : list string) : forall v, keeps f (get_path v ks).
Proof.
  induction ks as [|k rest IH]; intro v; simpl.
  - apply keeps_ret.
  - apply keeps_bind; [apply keeps_get | exact IH].
Qed.

Lemma keeps_if {A} (b : bool) (m1 m2 : M A) :
  keeps f m1 -> keeps f m2 -> keeps f (if b then m1 else m2).
Proof. now destruct b. Qed.

Lemma keeps_try_catch {A} (m : M A) (handler : value -> M A) :
  keeps f m -> (forall e, keeps f (handler e)) -> keeps f (try_catch m handler).
Proof.
  intros Hm Hh w r w' H. unfold try_catch in H.
  destruct (m w) as [[a|e] w0] eqn:E.
  - injection H as _ <-. exact (Hm _ _ _ E).
  - rewrite (Hh e _ _ _ H). exact (Hm _ _ _ E).
Qed.

End Keeps.

Lemma keeps_calls_logger_error (line : string) : keeps calls (logger_error line).
Proof. intros w r w' [= _ <-]. reflexivity. Qed.

Lemma keeps_logged_request (client_ : gateway) (c : call) :
  keeps logged (request client_ c).
Proof.
  intros w r w' H. unfold request in H.
  destruct (client_ (calls w) c); injection H as _ <-; reflexivity.
Qed.

Create HintDb quiet.
#[local] Hint Resolve keeps_ret keeps_throw keeps_get keeps_get_path
  keeps_calls_logger_error keeps_logged_request : quiet.
#[local] Hint Extern 2 (keeps _ (bind _ _)) =>
  apply keeps_bind; [|intro] : quiet.
#[local] Hint Extern 2 (keeps _ (if _ then _ else _)) =>
  apply keeps_if : quiet.

Lemma throws_objects_major_units (rt : runtime) (v : value) :
  throws_objects (major_units rt v).
Proof.
  intros w e w' H. unfold major_units, new_BigNumber in H.
  destruct (isNaN _); [|discriminate].
  injection H as <- _. eexists. reflexivity.
Qed.

Lemma keeps_major_units {T} (f : world -> T) (rt : runtime) (v : value) :
  keeps f (major_units rt v).
Proof.
  unfold major_units, new_BigNumber.
  destruct (isNaN _); [apply keeps_throw | apply keeps_ret].
Qed.

#[local] Hint Resolve throws_objects_major_units : throws.
#[local] Hint Resolve keeps_major_units : quiet.

(** [getWebhookActionAndData] returns an action for every payload, well
    formed or not (also when an amount is missing or not a number, which
    makes [new BigNumber] throw inside the [try]), under every
    configuration: it never throws, and it never sends a request to the
    gateway. *)
Theorem webhook_answers_without_gateway (rt : runtime) (options_ : RazorpayOptions)
  (payload : ProviderWebhookPayload) (w : world) :
  exists result w',
    getWebhookActionAndData rt options_ payload w = (Return result, w')
    /\ calls w' = calls w.
Proof.
  assert (R : exists result w',
             getWebhookActionAndData rt options_ payload w = (Return result, w')).
  { unfold getWebhookActionAndData. apply try_catch_returns.
    - cbv zeta. unfold dispatch_event. auto 40 with throws.
    - intros o w0. do 2 eexists. reflexivity. }
  assert (K : keeps calls (getWebhookActionAndData rt options_ payload)).
  { unfold getWebhookActionAndData. apply keeps_try_catch.
    - cbv zeta. unfold dispatch_event. auto 40 with quiet.
    - intro e. unfold webhook_failure. auto 10 with quiet. }
  destruct R as (result & w' & E). exists result, w'. split; [exact E|].
  exact (K _ _ _ E).
Qed.

(** *** Webhooks under a configured secret *)



(** *** What a method returns keeps the session's other fields *)

Lemma prop_set_prop_same (o : object) (k : string) (v : value) :
  prop (set_prop o k v) k = v.
Proof.
  induction o as [|[k' v'] rest IH]; simpl.
  - now rewrite String.eqb_refl.
  - destruct (String.eqb k' k) eqn:E; simpl.
    + now rewrite String.eqb_refl.
    + now rewrite E.
Qed.

Lemma prop_set_prop_other (o : object) (k k' : string) (v : value) :
  k' <> k -> prop (set_prop o k v) k' = prop o k'.
Proof.
  intro H. induction o as [|[k0 v0] rest IH]; simpl.
  - destruct (String.eqb_spec k k'); [congruence | reflexivity].
  - destruct (String.eqb_spec k0 k) as [->|Hk]; simpl.
    + destruct (String.eqb_spec k k'); [congruence | reflexivity].
    + destruct (String.eqb k0 k'); [reflexivity | exact IH].
Qed.

(** *** capturePayment on a session with a payment record *)

(** With a payment id in its data, [capturePayment] sends exactly one
    request: the capture of that payment for the [amount] stored in the
    payment record, as stored.  When the gateway accepts, the returned
    data has the captured record as [payment_details] and every other
    field as it came; when it rejects, the method logs and throws an
    [unexpected_state] error built from the rejection's [message]. *)
Theorem capture_with_payment (rt : runtime) (client_ : gateway)
  (input : PaymentInput) (w : world) :
  let id := opt_path (of_data (data input)) ["payment_details"; "id"] in
  let amount := opt_path (of_data (data input)) ["payment_details"; "amount"] in
  let capture := payments_capture id amount in
  truthy id = true ->
  (forall captured,
      client_ (calls w) capture = Resolve captured ->
      exists out,
        capturePayment rt client_ input w
        = (Return {| output_data := Some out |},
           World (calls w ++ [capture]) (logged w))
        /\ prop out "payment_details" = captured
        /\ forall k, k <> "payment_details" -> prop out k = prop (spread (data input)) k)
  /\ (forall err,
         client_ (calls w) capture = Reject err ->
         capturePayment rt client_ input w
         = (Throw (MedusaError UNEXPECTED_STATE (failure_line rt "capture" err)),
            World (calls w ++ [capture])
              (logged w ++ [failure_line rt "capture" err]))).
Proof.
  intros id amount capture Hid.
  assert (E : capturePayment rt client_ input w
              = try_catch
                  (capturedPayment <- request client_ capture ;;
                   ret {| output_data :=
                            Some (set_prop (spread (data input)) "payment_details"
                                    capturedPayment) |})
                  (fun error =>
                     message <- get error "message" ;;
                     let line := ("Failed to capture Razorpay payment: "
                                  ++ ToString rt message)%string in
                     logger_error line ;;
                     throw (MedusaError UNEXPECTED_STATE line)) w).
  { unfold capturePayment, try_catch. fold id. rewrite Hid. cbn [negb]. cbv iota.
    rewrite (bind_return _ (get_path_details _ "id" w Hid)).
    rewrite (bind_return _ (get_path_details _ "amount" w Hid)).
    reflexivity. }
  rewrite E. clear E. unfold try_catch, bind, request.
  split.
  - intros captured R. rewrite R. eexists. split; [reflexivity|]. split.
    + apply prop_set_prop_same.
    + intros k Hk. now apply prop_set_prop_other.
  - intros err R. rewrite R. reflexivity.
Qed.

Lemma capture_with_payment_witness :
  capturePayment sample_runtime sample_gateway {| data := authorized_session |} start
  = (Throw (MedusaError UNEXPECTED_STATE "Failed to capture Razorpay payment: undefined"),
     World [payments_capture (VString "pay_1") (VNumber 49900)]
       ["Failed to capture Razorpay payment: undefined"]).
Proof.
  exact (proj2 (capture_with_payment sample_runtime sample_gateway
                  {| data := authorized_session |} start eq_refl) _ eq_refl).
Defined.

(** *** refundPayment *)

(** [refundPayment] on a session with no payment id throws before any
    request is sent, whatever the amount. *)
Theorem refund_without_payment (rt : runtime) (client_ : gateway)
  (input : RefundPaymentInput) (w : world) :
  truthy (opt_path (of_data (refund_data input)) ["payment_details"; "id"]) = false ->
  refundPayment rt client_ input w
  = (Throw (MedusaError UNEXPECTED_STATE
              "Failed to refund Razorpay payment: Payment ID is required to refund payment"),
     World (calls w)
       (logged w
        ++ ["Failed to refund Razorpay payment: Payment ID is required to refund payment"])).
Proof.
  intro H. unfold refundPayment, try_catch. rewrite H. reflexivity.
Qed.

Lemma refund_without_payment_witness :
  refundPayment sample_runtime sample_gateway
    {| refund_data := Some [("id", VString "order_1")]; refund_amount := 10 |} start
  = (Throw (MedusaError UNEXPECTED_STATE
              "Failed to refund Razorpay payment: Payment ID is required to refund payment"),
     World []
       ["Failed to refund Razorpay payment: Payment ID is required to refund payment"]).
Proof.
  apply (refund_without_payment sample_runtime sample_gateway
           {| refund_data := Some [("id", VString "order_1")]; refund_amount := 10 |} start).
  reflexivity.
Defined.

(** On a session with a payment id, when the gateway accepts the refund
    [refundPayment] returns the data with the refund record added as
    [refund_details] and every other field, [payment_details] included,
    as it came; when the gateway rejects, it logs and throws an
    [unexpected_state] error built from the rejection's [message]. *)
Theorem refund_with_payment (rt : runtime) (client_ : gateway)
  (input : RefundPaymentInput) (w : world) :
  let id := opt_path (of_data (refund_data input)) ["payment_details"; "id"] in
  let refund :=
    payments_refund id
      [("amount", VNumber (parseInt (toFixed_0 rt (refund_amount input * 100)%float)));
       ("notes", VObject [("refund_reason", VString "Refund requested by merchant")])] in
  truthy id = true ->
  (forall refunded,
      client_ (calls w) refund = Resolve refunded ->
      exists out,
        refundPayment rt client_ input w
        = (Return {| output_data := Some out |},
           World (calls w ++ [refund]) (logged w))
        /\ prop out "refund_details" = refunded
        /\ forall k, k <> "refund_details" -> prop out k = prop (spread (refund_data input)) k)
  /\ (forall err,
         client_ (calls w) refund = Reject err ->
         refundPayment rt client_ input w
         = (Throw (MedusaError UNEXPECTED_STATE (failure_line rt "refund" err)),
            World (calls w ++ [refund])
              (logged w ++ [failure_line rt "refund" err]))).
Proof.
  intros id refund Hid.
  assert (E : refundPayment rt client_ input w
              = try_catch
                  (refundData <- request client_ refund ;;
                   ret {| output_data :=
                            Some (set_prop (spread (refund_data input)) "refund_details"
                                    refundData) |})
                  (fun error =>
                     message <- get error "message" ;;
                     let line := ("Failed to refund Razorpay payment: "
                                  ++ ToString rt message)%string in
                     logger_error line ;;
                     throw (MedusaError UNEXPECTED_STATE line)) w).
  { unfold refundPayment, try_catch. fold id. rewrite Hid. cbn [negb]. cbv iota zeta.
    rewrite (bind_return _ (get_path_details _ "id" w Hid)). reflexivity. }
  rewrite E. clear E. unfold try_catch, bind, request.
  split.
  - intros refunded R. rewrite R. eexists. split; [reflexivity|]. split.
    + apply prop_set_prop_same.
    + intros k Hk. now apply prop_set_prop_other.
  - intros err R. rewrite R. reflexivity.
Qed.

Lemma refund_with_payment_witness :
  exists out,
    refundPayment sample_runtime sample_gateway
      {| refund_data := authorized_session; refund_amount := 499 |} start
    = (Return {| output_data := Some out |},
       World [payments_refund (VString "pay_1")
                [("amount", VNumber 49900);
                 ("notes", VObject [("refund_reason",
                                     VString "Refund requested by merchant")])]] [])
    /\ prop out "refund_details"
       = VObject [("id", VString "rfnd_1");
                  ("amount", VNumber 49900);
                  ("notes", VObject [("refund_reason",
                                      VString "Refund requested by merchant")])]
    /\ forall k, k <> "refund_details" -> prop out k = prop (spread authorized_session) k.
Proof.
  exact (proj1 (refund_with_payment sample_runtime sample_gateway
                  {| refund_data := authorized_session; refund_amount := 499 |} start
                  eq_refl) _ eq_refl).
Defined.

(** *** cancelPayment when the gateway rejects *)

(** On an authorized payment: when the gateway rejects the refund,
    [cancelPayment] throws after that one request; when the gateway
    accepts the refund and then rejects the fetch, [cancelPayment]
    throws all the same, although the refund has been requested and
    accepted.  In both cases the error is logged. *)
Theorem cancel_failure_modes (rt : runtime) (client_ : gateway)
  (input : PaymentInput) (w : world) :
  let id := opt_path (of_data (data input)) ["payment_details"; "id"] in
  let status := opt_path (of_data (data input)) ["payment_details"; "status"] in
  let amount := opt_path (of_data (data input)) ["payment_details"; "amount"] in
  let refund :=
    payments_refund id
      [("amount", amount);
       ("notes", VObject [("cancellation_reason",
                           VString "Payment cancelled by merchant")])] in
  truthy id = true -> status = VString "authorized" ->
  (forall err,
      client_ (calls w) refund = Reject err ->
      cancelPayment rt client_ input w
      = (Throw (MedusaError UNEXPECTED_STATE (failure_line rt "cancel" err)),
         World (calls w ++ [refund]) (logged w ++ [failure_line rt "cancel" err])))
  /\ (forall refunded err,
         client_ (calls w) refund = Resolve refunded ->
         client_ (calls w ++ [refund]) (payments_fetch id) = Reject err ->
         cancelPayment rt client_ input w
         = (Throw (MedusaError UNEXPECTED_STATE (failure_line rt "cancel" err)),
            World (calls w ++ [refund; payments_fetch id])
              (logged w ++ [failure_line rt "cancel" err]))).
Proof.
  intros id status amount refund Hid Hst.
  rewrite (cancel_authorized_run rt client_ input w Hid Hst).
  fold id amount refund. split.
  - intros err R. rewrite R. reflexivity.
  - intros refunded err R1 R2. rewrite R1, R2. reflexivity.
Qed.

Lemma cancel_failure_modes_witness :
  cancelPayment sample_runtime
    (fun history c =>
       match c with
       | payments_refund _ _ => Resolve (VObject [("id", VString "rfnd_1")])
       | _ => Reject [("message", VString "timeout")]
       end)
    {| data := authorized_session |} start
  = (Throw (MedusaError UNEXPECTED_STATE "Failed to cancel Razorpay payment: timeout"),
     World [payments_refund (VString "pay_1")
              [("amount", VNumber 49900);
               ("notes", VObject [("cancellation_reason",
                                   VString "Payment cancelled by merchant")])];
            payments_fetch (VString "pay_1")]
       ["Failed to cancel Razorpay payment: timeout"]).
Proof.
  exact (proj2 (cancel_failure_modes sample_runtime
                  (fun history c =>
                     match c with
                     | payments_refund _ _ => Resolve (VObject [("id", VString "rfnd_1")])
                     | _ => Reject [("message", VString "timeout")]
                     end)
                  {| data := authorized_session |} start eq_refl eq_refl)
           _ _ eq_refl eq_refl).
Defined.

(** *** What the mutating methods throw *)

(** A [try] whose [catch] block logs a line and throws it as an
    [unexpected_state] error throws nothing else, and logs what it
    throws. *)
Lemma try_catch_rethrows {A} (m : M A) (handler : value -> M A) (line : object -> string) :
  throws_objects m -> keeps logged m ->
  (forall o w,
      handler (VObject o) w
      = (Throw (MedusaError UNEXPECTED_STATE (line o)),
         World (calls w) (logged w ++ [line o]))) ->
  forall w e w',
    try_catch m handler w = (Throw e, w') ->
    exists l, e = MedusaError UNEXPECTED_STATE l /\ logged w' = logged w ++ [l].
Proof.
  intros Ht Hk Hh w e w' H. unfold try_catch in H.
  destruct (m w) as [[a|e0] w0] eqn:E; [discriminate|].
  destruct (Ht _ _ _ E) as [o ->]. rewrite Hh in H. injection H as <- <-.
  exists (line o). split; [reflexivity|]. simpl. now rewrite (Hk _ _ _ E).
Qed.

#[local] Hint Extern 1 (throws_objects (throw (MedusaError _ _))) =>
  apply throws_objects_throw : throws.

(** Whatever [initiatePayment], [capturePayment], [cancelPayment],
    [refundPayment] and [updatePayment] throw is a [MedusaError] of type
    [unexpected_state], also when the cause is a validation error or a
    malformed gateway record, and its message is the last line logged. *)
Theorem failures_are_unexpected_state (rt : runtime) (client_ : gateway) :
  let unexpected (before : world) (e : value) (after : world) :=
    exists l, e = MedusaError UNEXPECTED_STATE l /\ logged after = logged before ++ [l] in
  (forall input w e w',
      initiatePayment rt client_ input w = (Throw e, w') -> unexpected w e w')
  /\ (forall input w e w',
         capturePayment rt client_ input w = (Throw e, w') -> unexpected w e w')
  /\ (forall input w e w',
         cancelPayment rt client_ input w = (Throw e, w') -> unexpected w e w')
  /\ (forall input w e w',
         refundPayment rt client_ input w = (Throw e, w') -> unexpected w e w')
  /\ (forall input w e w',
         updatePayment rt client_ input w = (Throw e, w') -> unexpected w e w').
Proof.
  intro unexpected. subst unexpected. cbv beta.
  repeat split; intros input w e w';
    [ unfold initiatePayment | unfold capturePayment | unfold cancelPayment
    | unfold refundPayment | unfold updatePayment ];
    (eapply try_catch_rethrows;
     [ cbv zeta; auto 40 with throws
     | cbv zeta; auto 40 with quiet
     | intros o w0; reflexivity ]).
Qed.

Lemma failures_are_unexpected_state_witness :
  exists l,
    MedusaError UNEXPECTED_STATE "Failed to capture Razorpay payment: undefined"
    = MedusaError UNEXPECTED_STATE l
    /\ logged (World [payments_capture (VString "pay_1") (VNumber 49900)]
                 ["Failed to capture Razorpay payment: undefined"])
       = logged start ++ [l].
Proof.
  exact (proj1 (proj2 (failures_are_unexpected_state sample_runtime sample_gateway))
           {| data := authorized_session |} start _ _ eq_refl).
Defined.

(** *** getPaymentStatus when the gateway fails *)

(** A session with a payment id is polled through that payment alone:
    the one request sent is its fetch, the order is never fetched, also
    when the session has an order id too.  A rejected fetch, of the
    payment or (for a session with an order id only) of the order, ends
    in [error] with the failure logged, not in an exception. *)
Theorem status_poll_failures (rt : runtime) (client_ : gateway)
  (input : PaymentInput) (w : world) :
  let payment_id := opt_path (of_data (data input)) ["payment_details"; "id"] in
  let order_id := opt_get (of_data (data input)) "id" in
  let line (err : object) :=
    ("Failed to get Razorpay payment status: " ++ ToString rt (prop err "message"))%string in
  (truthy payment_id = true ->
   calls (snd (getPaymentStatus rt client_ input w))
   = calls w ++ [payments_fetch payment_id]
   /\ forall err,
       client_ (calls w) (payments_fetch payment_id) = Reject err ->
       getPaymentStatus rt client_ input w
       = (Return {| status := status_error |},
          World (calls w ++ [payments_fetch payment_id]) (logged w ++ [line err])))
  /\ (truthy payment_id = false -> truthy order_id = true ->
      forall err,
        client_ (calls w) (orders_fetch order_id) = Reject err ->
        getPaymentStatus rt client_ input w
        = (Return {| status := status_error |},
           World (calls w ++ [orders_fetch order_id]) (logged w ++ [line err]))).
Proof.
  intros payment_id order_id line. split.
  - intro Hid. unfold getPaymentStatus, try_catch. fold payment_id. rewrite Hid.
    rewrite (bind_return _ (get_path_details _ "id" w Hid)). fold payment_id.
    unfold bind, request.
    destruct (client_ (calls w) (payments_fetch payment_id)) as [payment|err].
    + split; [|discriminate].
      destruct payment; simpl;
        repeat match goal with
               | |- context [if ?b then _ else _] => destruct b
               end; reflexivity.
    + split; [reflexivity|]. intros ? [= <-]. reflexivity.
  - intros Hp Hid err R. unfold getPaymentStatus, try_catch.
    fold payment_id order_id. rewrite Hp, Hid.
    assert (G : get (of_data (data input)) "id" w = (Return order_id, w)).
    { subst order_id. destruct (data input); [reflexivity | discriminate]. }
    rewrite (bind_return _ G). unfold bind, request. rewrite R. reflexivity.
Qed.

Lemma status_poll_failures_witness :
  getPaymentStatus sample_runtime (fun _ _ => Reject [("message", VString "timeout")])
    {| data := authorized_session |} start
  = (Return {| status := status_error |},
     World [payments_fetch (VString "pay_1")]
       ["Failed to get Razorpay payment status: timeout"]).
Proof.
  exact (proj2 (proj1 (status_poll_failures sample_runtime
                         (fun _ _ => Reject [("message", VString "timeout")])
                         {| data := authorized_session |} start) eq_refl)
           _ eq_refl).
Defined.

(** *** initiatePayment: what comes back *)

(** [initiatePayment] sends the order with the currency in upper case.
    When the gateway answers with a record, the method returns the
    record and its [id] and gives nothing to the logger.  When the gateway rejects with
    an [error.description], that description is what the thrown and
    logged message carries; for a rejection with neither [error] nor
    [description], its [message] is. *)
Theorem initiate_outcomes (rt : runtime) (client_ : gateway)
  (input : InitiatePaymentInput) (w : world) :
  let create :=
    orders_create
      [("amount",
        VNumber (parseInt (toFixed_0 rt (initiate_amount input * 100)%float)));
       ("currency", VString (toUpperCase rt (initiate_currency_code input)));
       ("receipt", VString ("medusa_" ++ decimal (Date_now rt))%string);
       ("notes", VObject [("medusa_payment_provider", VString "razorpay")])] in
  let failed (text : string) :=
    (Throw (MedusaError UNEXPECTED_STATE
              ("Failed to initiate Razorpay payment: " ++ text)%string),
     World (calls w ++ [create])
       (logged w ++ [("Failed to initiate Razorpay payment: " ++ text)%string])) in
  (forall order,
      client_ (calls w) create = Resolve order ->
      order <> VUndefined -> order <> VNull ->
      initiatePayment rt client_ input w
      = (Return {| initiated_id := opt_get order "id"; initiated_data := order |},
         World (calls w ++ [create]) (logged w)))
  /\ (forall err inner description,
         client_ (calls w) create = Reject err ->
         prop err "error" = VObject inner ->
         prop inner "description" = VString description -> description <> "" ->
         initiatePayment rt client_ input w = failed description)
  /\ (forall err message,
         client_ (calls w) create = Reject err ->
         truthy (prop err "error") = false ->
         truthy (prop err "description") = false ->
         prop err "message" = VString message -> message <> "" ->
         initiatePayment rt client_ input w = failed message).
Proof.
  intros create failed.
  assert (T : forall s, s <> "" -> truthy (VString s) = true).
  { intros s Hs. simpl. destruct s; [contradiction | reflexivity]. }
  unfold initiatePayment, try_catch. cbv zeta. fold create.
  repeat split; unfold bind at 1; unfold request at 1.
  - intros order R Hu Hn. rewrite R.
    rewrite (bind_return _ (get_record "id" _ Hu Hn)). reflexivity.
  - intros err inner description R He Hd Hne. rewrite R.
    cbn [opt_get opt_path fold_left]. unfold or_else. rewrite He. cbn [truthy opt_get].
    rewrite Hd, (T _ Hne). reflexivity.
  - intros err message R He Hd Hm Hne. rewrite R.
    cbn [opt_get opt_path fold_left]. unfold or_else. rewrite He. cbn [opt_get].
    rewrite Hd, Hm, (T _ Hne). reflexivity.
Qed.

Lemma initiate_outcomes_witness :
  initiatePayment sample_runtime
    (fun _ _ => Reject [("statusCode", VNumber 400);
                        ("error", VObject [("code", VString "BAD_REQUEST_ERROR");
                                           ("description", VString "Currency is not supported")])])
    {| initiate_amount := 499; initiate_currency_code := "xyz"; initiate_data := None |}
    start
  = (Throw (MedusaError UNEXPECTED_STATE
              "Failed to initiate Razorpay payment: Currency is not supported"),
     World [orders_create
              [("amount", VNumber 49900);
               ("currency", VString "XYZ");
               ("receipt", VString "medusa_1700000000000");
               ("notes", VObject [("medusa_payment_provider", VString "razorpay")])]]
       ["Failed to initiate Razorpay payment: Currency is not supported"]).
Proof.
  refine (proj1 (proj2 (initiate_outcomes sample_runtime
                          (fun _ _ => Reject [("statusCode", VNumber 400);
                                              ("error", VObject [("code", VString "BAD_REQUEST_ERROR");
                                                                 ("description", VString "Currency is not supported")])])
                          {| initiate_amount := 499; initiate_currency_code := "xyz";
                             initiate_data := None |} start))
            _ _ "Currency is not supported" eq_refl eq_refl eq_refl _).
  discriminate.
Defined.

(** *** updatePayment *)

(** [updatePayment] needs the id of the order it replaces: without one
    it throws before any request.  With one it creates a new order
    whose [notes] name the previous order and whose amount is converted
    like that of [initiatePayment]; when the gateway answers with a
    record, the returned data is that record with [previous_order_id]
    set to the old id. *)
Theorem update_creates_new_order (rt : runtime) (client_ : gateway)
  (input : UpdatePaymentInput) (w : world) :
  let previous := opt_get (of_data (update_data input)) "id" in
  let sent := parseInt (toFixed_0 rt (update_amount input * 100)%float) in
  let create :=
    orders_create
      [("amount", VNumber sent);
       ("currency", VString (toUpperCase rt (update_currency_code input)));
       ("receipt", VString ("medusa_" ++ decimal (Date_now rt))%string);
       ("notes", VObject [("medusa_payment_provider", VString "razorpay");
                          ("previous_order_id", previous)])] in
  (truthy previous = false ->
   updatePayment rt client_ input w
   = (Throw (MedusaError UNEXPECTED_STATE
               "Failed to update Razorpay payment: Order ID is required to update payment"),
      World (calls w)
        (logged w
         ++ ["Failed to update Razorpay payment: Order ID is required to update payment"])))
  /\ (truthy previous = true ->
      calls (snd (updatePayment rt client_ input w)) = calls w ++ [create]
      /\ minor_units (update_amount input * 100)%float sent
      /\ forall order,
          client_ (calls w) create = Resolve order ->
          order <> VUndefined -> order <> VNull ->
          exists out,
            updatePayment rt client_ input w
            = (Return {| updated_id := opt_get order "id"; updated_data := out |},
               World (calls w ++ [create]) (logged w))
            /\ prop out "previous_order_id" = previous
            /\ forall k, k <> "previous_order_id" ->
                         prop out k = prop (spread_value order) k).
Proof.
  intros previous sent create. split.
  - intro H. unfold updatePayment, try_catch. cbv zeta. fold previous. rewrite H.
    reflexivity.
  - intro H.
    assert (G : forall w0, get (of_data (update_data input)) "id" w0 = (Return previous, w0)).
    { intro w0. subst previous. destruct (update_data input); [reflexivity | discriminate]. }
    set (handler := fun error : value =>
                      message <- get error "message" ;;
                      let line := ("Failed to update Razorpay payment: "
                                   ++ ToString rt message)%string in
                      logger_error line ;;
                      throw (A := UpdatePaymentOutput) (MedusaError UNEXPECTED_STATE line)).
    assert (E : updatePayment rt client_ input w
                = let w1 := World (calls w ++ [create]) (logged w) in
                  match client_ (calls w) create with
                  | Resolve order =>
                      try_catch
                        (id <- get order "id" ;;
                         ret {| updated_id := id;
                                updated_data :=
                                  set_prop (spread_value order) "previous_order_id"
                                    previous |})
                        handler w1
                  | Reject err => handler (VObject err) w1
                  end).
    { unfold updatePayment, try_catch. cbv zeta. fold previous. rewrite H.
      cbn [negb]. cbv iota. rewrite (bind_return _ (G w)). fold sent create handler.
      unfold bind at 1. unfold request at 1.
      destruct (client_ (calls w) create) as [order|err]; [|reflexivity].
      subst handler. cbv beta.
      destruct order; unfold bind; cbn [get]; unfold ret, throw;
        try rewrite G; reflexivity. }
    rewrite E. clear E. cbv zeta.
    split; [|split].
    + destruct (client_ (calls w) create) as [order|err]; [|reflexivity].
      destruct order; reflexivity.
    + apply parseInt_toFixed_0.
    + intros order R Hu Hn. rewrite R. unfold try_catch.
      rewrite (bind_return _ (get_record "id" _ Hu Hn)).
      eexists. split; [reflexivity|]. split.
      * apply prop_set_prop_same.
      * intros k Hk. now apply prop_set_prop_other.
Qed.

Lemma update_creates_new_order_witness :
  exists out,
    updatePayment sample_runtime sample_gateway
      {| update_amount := 250; update_currency_code := "inr";
         update_data := Some [("id", VString "order_0")] |} start
    = (Return {| updated_id := VString "order_1"; updated_data := out |},
       World [orders_create
                [("amount", VNumber 25000);
                 ("currency", VString "INR");
                 ("receipt", VString "medusa_1700000000000");
                 ("notes", VObject [("medusa_payment_provider", VString "razorpay");
                                    ("previous_order_id", VString "order_0")])]] [])
    /\ prop out "previous_order_id" = VString "order_0"
    /\ forall k, k <> "previous_order_id" ->
                 prop out k
                 = prop (spread_value
                           (VObject
                              [("id", VString "order_1");
                               ("amount", VNumber 25000);
                               ("currency", VString "INR");
                               ("receipt", VString "medusa_1700000000000");
                               ("notes",
                                VObject [("medusa_payment_provider", VString "razorpay");
                                         ("previous_order_id", VString "order_0")])])) k.
Proof.
  refine (proj2 (proj2 (proj2 (update_creates_new_order sample_runtime sample_gateway
                                 {| update_amount := 250; update_currency_code := "inr";
                                    update_data := Some [("id", VString "order_0")] |} start)
                          eq_refl)) _ eq_refl _ _); discriminate.
Defined.

(** *** authorizePayment never vouches for an unverified payment *)

(** Whenever [authorizePayment] answers [authorized] or [captured], the
    signature in the data was the HMAC of ["{order id}|{payment id}"],
    the gateway was asked for that payment and reported it with exactly
    that status, and the reported record is the [payment_details] of
    the returned data. *)
Theorem authorized_only_when_verified (rt : runtime) (options_ : RazorpayOptions)
  (client_ : gateway) (input : PaymentInput) (w w' : world)
  (out : AuthorizePaymentOutput) :
  let data_ := of_data (data input) in
  let payment_id := opt_get data_ "razorpay_payment_id" in
  authorizePayment rt options_ client_ input w = (Return out, w') ->
  authorize_status out = status_authorized \/ authorize_status out = status_captured ->
  verifySignature options_
    (ToString rt (opt_get data_ "razorpay_order_id") ++ "|" ++ ToString rt payment_id)%string
    (opt_get data_ "razorpay_signature") = true
  /\ exists payment,
      client_ (calls w) (payments_fetch payment_id) = Resolve payment
      /\ authorize_data out
         = Some (set_prop (spread (data input)) "payment_details" payment)
      /\ (authorize_status out = status_authorized ->
          opt_get payment "status" = VString "authorized")
      /\ (authorize_status out = status_captured ->
          opt_get payment "status" = VString "captured").
Proof.
  intros data_ payment_id H Hs. subst data_ payment_id.
  unfold authorizePayment, try_catch in H.
  destruct (truthy (opt_get (of_data (data input)) "razorpay_payment_id")
            && truthy (opt_get (of_data (data input)) "razorpay_signature")) eqn:C.
  2: { injection H as <- _. destruct Hs; discriminate. }
  destruct (data input) as [o|]; [|discriminate C].
  cbn [of_data opt_get spread] in *. unfold bind at 1 2 3 in H. rewrite !get_object in H.
  destruct (verifySignature options_ _ _) eqn:V; cbn [negb] in H; cbv iota in H.
  2: { injection H as <- _. destruct Hs; discriminate. }
  split; [reflexivity|].
  unfold bind at 1 in H. unfold request at 1 in H.
  destruct (client_ (calls w) (payments_fetch (prop o "razorpay_payment_id")))
    as [payment|err].
  2: { injection H as <- _. destruct Hs; discriminate. }
  exists payment. split; [reflexivity|].
  assert (P : payment = VUndefined \/ payment = VNull
              \/ forall w0, get payment "status" w0 = (Return (opt_get payment "status"), w0)).
  { destruct payment; auto. }
  destruct P as [->|[->|P]].
  - injection H as <- _. destruct Hs; discriminate.
  - injection H as <- _. destruct Hs; discriminate.
  - rewrite (bind_return _ (P _)) in H.
    destruct (is_str (opt_get payment "status") "authorized") eqn:A;
      destruct (is_str (opt_get payment "status") "captured") eqn:B;
      cbn [orb] in H; cbv iota in H; injection H as <- _; cbn [authorize_status authorize_data];
      try apply is_str_true in A; try apply is_str_true in B.
    + rewrite A in B. discriminate B.
    + split; [reflexivity|]. split; [intros _; exact A | discriminate].
    + split; [reflexivity|]. split; [discriminate | intros _; exact B].
    + destruct Hs; discriminate.
Qed.

Lemma authorized_only_when_verified_witness :
  verifySignature options_without_webhook_secret "order_1|pay_1"
    (VString "444ab3353f39d9a6cd042ce01e598f3a2819f46159b58f0ff40d4eed15d8e158") = true
  /\ exists payment,
      sample_gateway [] (payments_fetch (VString "pay_1")) = Resolve payment
      /\ Some [("razorpay_order_id", VString "order_1");
               ("razorpay_payment_id", VString "pay_1");
               ("razorpay_signature",
                VString "444ab3353f39d9a6cd042ce01e598f3a2819f46159b58f0ff40d4eed15d8e158");
               ("payment_details",
                VObject [("id", VString "pay_1");
                         ("status", VString "authorized");
                         ("amount", VNumber 49900)])]
         = Some (set_prop
                   [("razorpay_order_id", VString "order_1");
                    ("razorpay_payment_id", VString "pay_1");
                    ("razorpay_signature",
                     VString "444ab3353f39d9a6cd042ce01e598f3a2819f46159b58f0ff40d4eed15d8e158")]
                   "payment_details" payment)
      /\ (status_authorized = status_authorized ->
          opt_get payment "status" = VString "authorized")
      /\ (status_authorized = status_captured ->
          opt_get payment "status" = VString "captured").
Proof.
  exact (@authorized_only_when_verified sample_runtime options_without_webhook_secret
           sample_gateway
           {| data :=
                Some [("razorpay_order_id", VString "order_1");
                      ("razorpay_payment_id", VString "pay_1");
                      ("razorpay_signature",
                       VString "444ab3353f39d9a6cd042ce01e598f3a2819f46159b58f0ff40d4eed15d8e158")] |}
           start
           (World [payments_fetch (VString "pay_1")] [])
           {| authorize_status := status_authorized;
              authorize_data :=
                Some [("razorpay_order_id", VString "order_1");
                      ("razorpay_payment_id", VString "pay_1");
                      ("razorpay_signature",
                       VString "444ab3353f39d9a6cd042ce01e598f3a2819f46159b58f0ff40d4eed15d8e158");
                      ("payment_details",
                       VObject [("id", VString "pay_1");
                                ("status", VString "authorized");
                                ("amount", VNumber 49900)])] |}
           ltac:(vm_compute; reflexivity) (or_introl eq_refl)).
Defined.

(** *** getPaymentStatus only reads *)

(** [getPaymentStatus] sends at most one request, and only a fetch: of
    the payment when the session has a payment id, else of the order
    when it has an order id, else nothing.  It never creates, captures
    or refunds. *)
Theorem status_poll_is_read_only (rt : runtime) (client_ : gateway)
  (input : PaymentInput) (w : world) :
  let payment_id := opt_path (of_data (data input)) ["payment_details"; "id"] in
  let order_id := opt_get (of_data (data input)) "id" in
  calls (snd (getPaymentStatus rt client_ input w))
  = calls w
    ++ (if truthy payment_id then [payments_fetch payment_id]
        else if truthy order_id then [orders_fetch order_id]
        else []).
Proof.
  intros payment_id order_id. unfold getPaymentStatus, try_catch.
  fold payment_id order_id.
  destruct (truthy payment_id) eqn:Hp.
  - rewrite (bind_return _ (get_path_details _ "id" w Hp)). fold payment_id.
    unfold bind, request.
    destruct (client_ (calls w) (payments_fetch payment_id)) as [payment|err];
      [|reflexivity].
    destruct payment; simpl;
      repeat match goal with
             | |- context [if ?b then _ else _] => destruct b
             end; reflexivity.
  - destruct (truthy order_id) eqn:Ho.
    + assert (G : get (of_data (data input)) "id" w = (Return order_id, w)).
      { subst order_id. destruct (data input); [reflexivity | discriminate]. }
      rewrite (bind_return _ G). unfold bind, request.
      destruct (client_ (calls w) (orders_fetch order_id)) as [order|err];
        [|reflexivity].
      destruct order; simpl;
        repeat match goal with
               | |- context [if ?b then _ else _] => destruct b
               end; reflexivity.
    + simpl. now rewrite app_nil_r.
Qed.

(** *** Webhooks whose amount is not a number *)

Lemma major_units_not_numeric (rt : runtime) (v : value) (w : world) :
  isNaN (ToNumber rt v / 100)%float = true ->
  major_units rt v w
  = (Throw (Error_ "Invalid BigNumber value: NaN. Should be one of: string, number, BigNumber (bignumber.js), BigNumberRawValue"),
     w).
Proof. unfold major_units, new_BigNumber. now intros ->. Qed.

(** A recognized event that passes the signature gate but whose entity
    has no numeric amount (its hundredth is [NaN]: the amount is
    missing, [NaN], an object, a string that is no number) gets no
    session reference at all: [new BigNumber] throws, and the method
    answers [failed] with a message that starts "Error processing
    webhook: Invalid BigNumber value: NaN" and logs the failure. *)
Theorem webhook_amount_not_numeric (rt : runtime) (options_ : RazorpayOptions)
  (wh : ProviderWebhookPayload) (w : world) (payload group entity : object) :
  rejected_at_gate options_ wh = false ->
  prop (webhook_data wh) "payload" = VObject payload ->
  prop group "entity" = VObject entity ->
  isNaN (ToNumber rt (prop entity "amount") / 100)%float = true ->
  (prop payload "payment" = VObject group
   /\ (prop (webhook_data wh) "event" = VString "payment.authorized"
       \/ prop (webhook_data wh) "event" = VString "payment.captured"
       \/ prop (webhook_data wh) "event" = VString "payment.failed"))
  \/ (prop payload "refund" = VObject group
      /\ prop (webhook_data wh) "event" = VString "refund.processed") ->
  exists rest,
    getWebhookActionAndData rt options_ wh w
    = (Return {| action := action_failed;
                 action_data :=
                   Some (message_only
                           ("Error processing webhook: Invalid BigNumber value: NaN"
                            ++ rest)%string) |},
       World (calls w)
         (logged w
          ++ [("Failed to process Razorpay webhook: Invalid BigNumber value: NaN"
               ++ rest)%string])).
Proof.
  intros G Hp He Hn H.
  exists ". Should be one of: string, number, BigNumber (bignumber.js), BigNumberRawValue".
  rewrite gate_passes by assumption.
  destruct H as [[Hg [Hev|[Hev|Hev]]]|[Hg Hev]];
    unfold try_catch, dispatch_event; rewrite Hev; eval_is_str; cbv iota;
    rewrite !(bind_return _ (@get_path_entity _ _ _ _ _ _ _ Hp Hg He));
    rewrite (bind_throw _ (major_units_not_numeric _ _ _ Hn));
    reflexivity.
Qed.

Lemma webhook_amount_not_numeric_witness :
  exists rest,
    getWebhookActionAndData sample_runtime options_without_webhook_secret
      {| webhook_data :=
           [("event", VString "payment.captured");
            ("payload",
             VObject [("payment",
                       VObject [("entity",
                                 VObject [("order_id", VString "order_1")])])])];
         headers := []; rawData := "{}" |} start
    = (Return {| action := action_failed;
                 action_data :=
                   Some (message_only
                           ("Error processing webhook: Invalid BigNumber value: NaN"
                            ++ rest)%string) |},
       World []
         [("Failed to process Razorpay webhook: Invalid BigNumber value: NaN"
           ++ rest)%string]).
Proof.
  refine (@webhook_amount_not_numeric sample_runtime options_without_webhook_secret
            {| webhook_data :=
                 [("event", VString "payment.captured");
                  ("payload",
                   VObject [("payment",
                             VObject [("entity",
                                       VObject [("order_id", VString "order_1")])])])];
               headers := []; rawData := "{}" |} start
            [("payment", VObject [("entity", VObject [("order_id", VString "order_1")])])]
            [("entity", VObject [("order_id", VString "order_1")])]
            [("order_id", VString "order_1")]
            eq_refl eq_refl eq_refl eq_refl _).
  left. split; [reflexivity|]. right. left. reflexivity.
Defined.
